(** * Serverless proxy endpoints of the LLM playground

    A shallow embedding of the five request handlers under [src/api]:

    - [StreamingEdge]  : [streaming-edge.js], the edge function that relays a
                         server-sent-event stream;
    - [Proxy]          : [proxy.js] (first unit), the buffered chat proxy that
                         adds a thread id;
    - [ResearchAgent]  : [proxy.js] (second unit), the Abacus.AI research agent;
    - [WebSearchAgent] : [abacus-websearch.js] (first unit), the Abacus.AI web
                         search agent;
    - [FireworksProxy] : [abacus-websearch.js] (second unit), the chat proxy
                         with a pipe-through streaming mode.

    A handler is a computation in a small monad that threads the response
    object, the log of outbound calls and the clock, and that can finish with a
    value, with a [return] or with a thrown exception.  Everything the handlers
    read from their surroundings (environment variables, the clock, the parsed
    body, the upstream server, the conversions of the language that depend on
    text parsing) is a field of a [Platform] record, so a theorem quantified
    over platforms holds for every behaviour of those surroundings. *)

From Stdlib Require Import List String Ascii Bool ZArith QArith Lia Lqa.
From Stdlib Require Import Strings.Byte DecimalString.
Import ListNotations.

Local Open Scope string_scope.
Local Open Scope Z_scope.

Set Implicit Arguments.
Set Warnings "-register-all".

(** ** JavaScript values *)

(** A JavaScript number: a double is NaN, an infinity, or a rational.  Signed
    zeros are not told apart (both are falsy, and no handler divides). *)
Inductive number : Type :=
| NaN
| NegInfinity
| Infinity
| Fin (q : Q).

(** The values a JSON document denotes, plus [undefined].  A string has one
    character per UTF-16 code unit (code units below 256).  The fields of an
    object are kept in enumeration order and carry no duplicate key. *)
Inductive Value : Type :=
| VUndefined
| VNull
| VBool (b : bool)
| VNum (n : number)
| VStr (s : string)
| VArr (items : list Value)
| VObj (fields : list (string * Value)).

Definition num (z : Z) : Value := VNum (Fin (inject_Z z)).

(** An exception object: only [name] and [message] are ever read. *)
Record exn : Type := Error { name : string; message : string }.

Definition TypeError (msg : string) : exn := Error "TypeError" msg.
Definition RangeError (msg : string) : exn := Error "RangeError" msg.
Definition AbortError : exn := Error "AbortError" "The user aborted a request.".

(** The completion of an expression: a value or a thrown exception. *)
Inductive Completion (A : Type) : Type :=
| Normal (a : A)
| Throw (e : exn).
Arguments Normal {A} a.
Arguments Throw {A} e.

(** Sequencing of expressions that may throw. *)
Definition and_then {A B} (c : Completion A) (k : A -> Completion B) : Completion B :=
  match c with
  | Normal a => k a
  | Throw e => Throw e
  end.

Declare Scope completion_scope.
Delimit Scope completion_scope with completion.
Notation "x <- c ;; k" := (and_then c (fun x => k))
  (at level 100, c at next level, right associativity) : completion_scope.

(** *** Truthiness, [||], [===] *)

Definition number_truthy (n : number) : bool :=
  match n with
  | NaN => false
  | NegInfinity | Infinity => true
  | Fin q => negb (Qnum q =? 0)
  end.

Definition truthy (v : Value) : bool :=
  match v with
  | VUndefined | VNull => false
  | VBool b => b
  | VNum n => number_truthy n
  | VStr s => negb (s =? "")%string
  | VArr _ | VObj _ => true
  end.

(** [a || b] *)
Definition or_else (a b : Value) : Value := if truthy a then a else b.

(** [v === true] *)
Definition is_true (v : Value) : bool :=
  match v with VBool true => true | _ => false end.

(** [v === undefined] *)
Definition is_undefined (v : Value) : bool :=
  match v with VUndefined => true | _ => false end.

(** [v === undefined || v === null] *)
Definition is_nullish (v : Value) : bool :=
  match v with VUndefined | VNull => true | _ => false end.

(** [typeof v === 'string'] *)
Definition is_string (v : Value) : bool :=
  match v with VStr _ => true | _ => false end.

(** *** Objects as ordered field lists *)

Fixpoint lookup (k : string) (fields : list (string * Value)) : Value :=
  match fields with
  | [] => VUndefined
  | (k', v) :: rest => if (k' =? k)%string then v else lookup k rest
  end.


(** [o[k] = v] on an ordinary object: an existing key keeps its place, a new
    key goes last. *)
Fixpoint set_field (k : string) (v : Value) (fields : list (string * Value))
  : list (string * Value) :=
  match fields with
  | [] => [(k, v)]
  | (k', v') :: rest =>
      if (k' =? k)%string then (k, v) :: rest else (k', v') :: set_field k v rest
  end.

(** [delete o[k]] *)
Fixpoint delete_field (k : string) (fields : list (string * Value))
  : list (string * Value) :=
  match fields with
  | [] => []
  | (k', v') :: rest =>
      if (k' =? k)%string then delete_field k rest
      else (k', v') :: delete_field k rest
  end.

Definition string_of_Z (z : Z) : string := NilZero.string_of_int (Z.to_int z).
Definition string_of_nat (n : nat) : string := string_of_Z (Z.of_nat n).

(** The single-character strings of [s], one per code unit. *)
Fixpoint chars (s : string) : list Value :=
  match s with
  | EmptyString => []
  | String c rest => VStr (String c EmptyString) :: chars rest
  end.

Fixpoint indexed_from (i : nat) (l : list Value) : list (string * Value) :=
  match l with
  | [] => []
  | v :: rest => (string_of_nat i, v) :: indexed_from (S i) rest
  end.

(** The own enumerable properties copied by a spread [{...v}]: the fields of
    an object, the indexed elements of an array or of a string, and nothing
    for the other primitives. *)
Definition own_properties (v : Value) : list (string * Value) :=
  match v with
  | VObj fields => fields
  | VArr items => indexed_from 0 items
  | VStr s => indexed_from 0 (chars s)
  | _ => []
  end.

(** [v.k] for a property name [k] that no built-in prototype defines (every
    name the handlers read is of that kind): an own field of an object,
    [undefined] on an array or a primitive, a [TypeError] on [null] and
    [undefined]. *)
Definition get (v : Value) (k : string) : Completion Value :=
  match v with
  | VUndefined =>
      Throw (TypeError ("Cannot read properties of undefined (reading '" ++ k ++ "')"))
  | VNull =>
      Throw (TypeError ("Cannot read properties of null (reading '" ++ k ++ "')"))
  | VObj fields => Normal (lookup k fields)
  | _ => Normal VUndefined
  end.

(** [v[0]] *)
Definition get_first (v : Value) : Completion Value :=
  match v with
  | VUndefined =>
      Throw (TypeError "Cannot read properties of undefined (reading '0')")
  | VNull =>
      Throw (TypeError "Cannot read properties of null (reading '0')")
  | VObj fields => Normal (lookup "0" fields)
  | VArr items => Normal (nth 0%nat items VUndefined)
  | VStr s => Normal (nth 0%nat (chars s) VUndefined)
  | _ => Normal VUndefined
  end.

(** [v.k = x] in strict mode (an ES module): only an object takes the field
    (an array takes it too, invisibly to JSON); a primitive throws. *)
Definition assign_strict (v : Value) (k : string) (x : Value) : Completion Value :=
  match v with
  | VObj fields => Normal (VObj (set_field k x fields))
  | VArr items => Normal (VArr items)
  | VUndefined =>
      Throw (TypeError ("Cannot set properties of undefined (setting '" ++ k ++ "')"))
  | VNull =>
      Throw (TypeError ("Cannot set properties of null (setting '" ++ k ++ "')"))
  | _ =>
      Throw (TypeError ("Cannot create property '" ++ k ++ "' on a primitive value"))
  end.

(** [v.k = x] in sloppy mode (a CommonJS module) on a truthy [v]: a primitive
    silently ignores the assignment. *)
Definition assign_sloppy (v : Value) (k : string) (x : Value) : Value :=
  match v with
  | VObj fields => VObj (set_field k x fields)
  | _ => v
  end.

(** *** Strings *)

Fixpoint includes_from (needle hay : string) : bool :=
  if prefix needle hay then true
  else match hay with
       | EmptyString => false
       | String _ rest => includes_from needle rest
       end.

(** [hay.includes(needle)] on strings *)
Definition str_includes (hay needle : string) : bool := includes_from needle hay.

(** [v.includes(needle)]: a substring test on a string, a membership test on
    an array; any other receiver has no callable [includes]. *)
Definition includes (v : Value) (needle : string) : Completion bool :=
  match v with
  | VStr s => Normal (str_includes s needle)
  | VArr items =>
      Normal (existsb (fun x => match x with
                                | VStr s => (s =? needle)%string
                                | _ => false
                                end) items)
  | _ => Throw (TypeError "systemPrompt.includes is not a function")
  end.

(** [v.substring(0, 100)] together with [v.length]: only a string has them. *)
Definition substring_100 (v : Value) : Completion string :=
  match v with
  | VStr s => Normal (substring 0 100 s)
  | _ => Throw (TypeError "query.substring is not a function")
  end.

(** *** [Math.max], [Math.min] *)

Definition Math_max (a b : number) : number :=
  match a, b with
  | NaN, _ | _, NaN => NaN
  | Infinity, _ | _, Infinity => Infinity
  | NegInfinity, x | x, NegInfinity => x
  | Fin p, Fin q => if Qle_bool p q then Fin q else Fin p
  end.

Definition Math_min (a b : number) : number :=
  match a, b with
  | NaN, _ | _, NaN => NaN
  | NegInfinity, _ | _, NegInfinity => NegInfinity
  | Infinity, x | x, Infinity => x
  | Fin p, Fin q => if Qle_bool p q then Fin p else Fin q
  end.

(** ** Text, chunks and the surroundings of a handler *)

(** Text produced by a handler.  [Stringify v] stands for [JSON.stringify(v)],
    which is not computed: a statement about a body is a statement about the
    value handed to the serializer. *)
Inductive Text : Type :=
| Lit (s : string)
| Stringify (v : Value)
| Cat (a b : Text).

(** A chunk written to a client channel: bytes forwarded as they came, or the
    encoding of a text the handler composed ([encoder.encode(t)]). *)
Inductive Chunk : Type :=
| Raw (value : list byte)
| Encoded (t : Text).

Definition LF : string := String (ascii_of_nat 10) EmptyString.

(** ["data: [DONE]\n\n"] *)
Definition DONE : Text := Lit ("data: [DONE]" ++ LF ++ LF).

Module Fetch.
(** The second argument of [fetch].  [signal] is the delay in milliseconds
    after which the abort controller behind the signal fires, when a signal
    is passed at all. *)
Record Request : Type := mkRequest {
  url : string;
  method : string;
  headers : list (string * string);
  body : Text;
  signal : option Z
}.
End Fetch.

Module Upstream.
Inductive StreamEnd : Type :=
| EndOfStream
| StreamError (e : exn).

(** The body of an upstream response as its reader delivers it: the chunks,
    then the end of the stream or a failure. *)
Record BodyStream : Type := mkBody {
  chunks : list (list byte);
  ending : StreamEnd
}.

Record Response : Type := mkResponse {
  status : Z;
  statusText : string;
  text : Completion string;      (* await response.text() *)
  json : Completion Value;       (* await response.json() *)
  body : option BodyStream       (* response.body, null for a bodiless answer *)
}.

(** [response.ok] *)
Definition ok (r : Response) : bool := (200 <=? status r) && (status r <=? 299).
End Upstream.

(** What a handler reads from its surroundings. *)
Record Platform : Type := mkPlatform {
  (** [process.env.NAME] *)
  process_env : string -> option string;
  (** the n-th reading of [Date.now()] *)
  Date_now : nat -> Z;
  (** [JSON.parse] *)
  JSON_parse : string -> Completion Value;
  (** the number a string denotes (ECMAScript StringToNumber) *)
  StringToNumber : string -> number;
  (** the primitive string an array or an object converts to, or the
      [TypeError] of an object whose [toString] is shadowed *)
  ToPrimitive : Value -> Completion string;
  (** milliseconds between the arming of the timer and the settling of [fetch] *)
  fetch_latency : Z;
  (** how [fetch] settles when nothing aborts it *)
  fetch_settles : Fetch.Request -> Completion Upstream.Response;
  (** how many writes the client takes before it goes away; [None]: all *)
  client_accepts : option nat
}.

(** [!!process.env.NAME] and the text [`${process.env.NAME}`] *)
Definition env_set (x : option string) : bool :=
  match x with
  | Some s => negb (s =? "")%string
  | None => false
  end.

Definition env_text (x : option string) : string :=
  match x with
  | Some s => s
  | None => "undefined"
  end.

Definition env_value (x : option string) : Value :=
  match x with
  | Some s => VStr s
  | None => VUndefined
  end.

(** [ToNumber(v)] *)
Definition ToNumber (P : Platform) (v : Value) : Completion number :=
  match v with
  | VUndefined => Normal NaN
  | VNull => Normal (Fin 0)
  | VBool b => Normal (Fin (if b then 1 else 0))
  | VNum n => Normal n
  | VStr s => Normal (StringToNumber P s)
  | VArr _ | VObj _ =>
      match ToPrimitive P v with
      | Normal s => Normal (StringToNumber P s)
      | Throw e => Throw e
      end
  end.

(** [`${v}`] inside a logged template literal: the text is not observable,
    whether the conversion throws is. *)
Definition interpolate (P : Platform) (v : Value) : Completion unit :=
  match v with
  | VArr _ | VObj _ =>
      match ToPrimitive P v with
      | Normal _ => Normal tt
      | Throw e => Throw e
      end
  | _ => Normal tt
  end.

(** *** The validation of [max_tokens], common to the three chat handlers *)

(** [requestBody.max_tokens || 4096] *)
Definition originalMaxTokens (max_tokens : Value) : Value :=
  or_else max_tokens (num 4096).

(** [Math.min(Math.max(1, originalMaxTokens), 8192)] *)
Definition validatedMaxTokens (P : Platform) (original : Value)
  : Completion number :=
  match ToNumber P original with
  | Normal n => Normal (Math_min (Math_max (Fin 1) n) (Fin 8192))
  | Throw e => Throw e
  end.

(** ** The handler monad *)

(** A statement finishes normally with a value, returns from the enclosing
    function, or throws. *)
Inductive Outcome (R A : Type) : Type :=
| Val (a : A)
| Ret (r : R)
| Exn (e : exn).
Arguments Val {R A} a.
Arguments Ret {R A} r.
Arguments Exn {R A} e.

Definition M (S R A : Type) : Type := S -> Outcome R A * S.

Definition ret {S R A} (a : A) : M S R A := fun s => (Val a, s).

Definition bind {S R A B} (m : M S R A) (k : A -> M S R B) : M S R B :=
  fun s =>
    match m s with
    | (Val a, s') => k a s'
    | (Ret r, s') => (Ret r, s')
    | (Exn e, s') => (Exn e, s')
    end.

(** [return r;] *)
Definition return_ {S R A} (r : R) : M S R A := fun s => (Ret r, s).

(** [throw e;] *)
Definition throw {S R A} (e : exn) : M S R A := fun s => (Exn e, s).

Definition lift {S R A} (c : Completion A) : M S R A :=
  match c with
  | Normal a => ret a
  | Throw e => throw e
  end.

(** [try { m } catch (e) { h e }] *)
Definition try_catch {S R A} (m : M S R A) (h : exn -> M S R A) : M S R A :=
  fun s =>
    match m s with
    | (Exn e, s') => h e s'
    | other => other
    end.

(** [if (c) { m }] *)
Definition when {S R} (c : bool) (m : M S R unit) : M S R unit :=
  if c then m else ret tt.

Definition modify {S R} (f : S -> S) : M S R unit := fun s => (Val tt, f s).

Declare Scope js_scope.
Delimit Scope js_scope with js.
Notation "x <- m ;; k" := (bind m (fun x => k))
  (at level 100, m at next level, right associativity) : js_scope.
Notation "m ;; k" := (bind m (fun _ => k))
  (at level 100, right associativity) : js_scope.
Notation "'try' m 'catch' h" := (try_catch m h)
  (at level 100, m at level 100, h at level 9) : js_scope.
Local Open Scope js_scope.

(** ** Responses *)

(** Headers as a name-indexed table: setting a name again replaces its value.
    The handlers spell every header name the same way each time, so the
    case-insensitivity of header names plays no part. *)
Fixpoint set_header (name value : string) (hs : list (string * string))
  : list (string * string) :=
  match hs with
  | [] => [(name, value)]
  | (n, v) :: rest =>
      if (n =? name)%string then (name, value) :: rest
      else (n, v) :: set_header name value rest
  end.

Fixpoint header (name : string) (hs : list (string * string)) : option string :=
  match hs with
  | [] => None
  | (n, v) :: rest => if (n =? name)%string then Some v else header name rest
  end.

(** The headers object literal of a [Response] or of [fetch]. *)
Definition headers_of (l : list (string * string)) : list (string * string) :=
  fold_left (fun hs nv => set_header (fst nv) (snd nv) hs) l [].

Module Res.
(** The Node response object [res]: the status code (200 until set), the
    headers, the chunks written to the client and the number of times the
    response was ended. *)
Record t : Type := mk {
  statusCode : Z;
  headers : list (string * string);
  written : list Chunk;
  ended : nat
}.

Definition fresh : t := mk 200 [] [] 0.
End Res.

(** The state a handler threads: the response object, the outbound calls
    issued so far (oldest first), the number of clock readings, and the
    [responseSent] flag of the one handler that keeps such a flag. *)
Record St : Type := mkSt {
  res : Res.t;
  calls : list Fetch.Request;
  ticks : nat;
  responseSent : bool
}.

Definition St0 : St := mkSt Res.fresh [] 0 false.

Definition on_res (f : Res.t -> Res.t) (s : St) : St :=
  mkSt (f (res s)) (calls s) (ticks s) (responseSent s).

Section Effects.
Variable P : Platform.
Variable R : Type.

(** [res.setHeader(name, value)] *)
Definition setHeader (name value : string) : M St R unit :=
  modify (on_res (fun r =>
    Res.mk (Res.statusCode r) (set_header name value (Res.headers r))
           (Res.written r) (Res.ended r))).

(** [res.status(code)] *)
Definition status (code : Z) : M St R unit :=
  modify (on_res (fun r =>
    Res.mk code (Res.headers r) (Res.written r) (Res.ended r))).

(** [res.write(chunk)] *)
Definition write (c : Chunk) : M St R unit :=
  modify (on_res (fun r =>
    Res.mk (Res.statusCode r) (Res.headers r) (Res.written r ++ [c]) (Res.ended r))).

(** [res.end()] *)
Definition end_ : M St R unit :=
  modify (on_res (fun r =>
    Res.mk (Res.statusCode r) (Res.headers r) (Res.written r) (S (Res.ended r)))).

(** [res.json(v)]: the serialized value is the whole body. *)
Definition json (v : Value) : M St R unit :=
  write (Encoded (Stringify v)) ;; end_.

(** [Date.now()] *)
Definition now : M St R Z :=
  fun s => (Val (Date_now P (ticks s)),
            mkSt (res s) (calls s) (S (ticks s)) (responseSent s)).

(** [await fetch(url, options)]: the call is recorded; when a signal is
    passed and its timer runs out before [fetch] settles, the controller
    aborts the call and [fetch] rejects with an [AbortError]. *)
Definition fetch (request : Fetch.Request) : M St R Upstream.Response :=
  fun s =>
    let s' := mkSt (res s) (calls s ++ [request]) (ticks s) (responseSent s) in
    match Fetch.signal request with
    | Some timeout =>
        if timeout <? fetch_latency P then (Exn AbortError, s')
        else lift (fetch_settles P request) s'
    | None => lift (fetch_settles P request) s'
    end.

(** [responseSent = true;] *)
Definition set_responseSent : M St R unit :=
  modify (fun s => mkSt (res s) (calls s) (ticks s) true).

(** the current value of [responseSent] *)
Definition get_responseSent : M St R bool :=
  fun s => (Val (responseSent s), s).

(** [source.pipe(res)]: every chunk is written as it comes; the end of the
    source ends the response; a failure of the source leaves the response
    as it is, neither written to nor ended. *)
Definition pipe (source : Upstream.BodyStream) : M St R unit :=
  modify (on_res (fun r =>
    Res.mk (Res.statusCode r) (Res.headers r)
           (Res.written r ++ map Raw (Upstream.chunks source))
           (match Upstream.ending source with
            | Upstream.EndOfStream => S (Res.ended r)
            | Upstream.StreamError _ => Res.ended r
            end))).
End Effects.

Arguments setHeader {R} name value.
Arguments status {R} code.
Arguments write {R} c.
Arguments end_ {R}.
Arguments json {R} v.
Arguments pipe {R} source.
Arguments set_responseSent {R}.
Arguments get_responseSent {R}.
Arguments now P {R}.
Arguments fetch P {R} request.

(** ** [streaming-edge.js] *)

Module StreamingEdge.

(** The writable side of the [TransformStream]: what the client has been
    sent, how often the channel was closed, and how many more writes the
    client takes ([None]: any number).  Once the client is gone, or once the
    channel is closed, [write] and [close] reject. *)
Record Writer : Type := mkWriter {
  written : list Chunk;
  closed : nat;
  accepts : option nat
}.

Definition open_channel (capacity : option nat) : Writer := mkWriter [] 0 capacity.

Definition broken (w : Writer) : bool :=
  match accepts w with
  | Some O => true
  | _ => negb (Nat.eqb (closed w) 0)
  end.

(** [await writer.write(chunk)] *)
Definition writer_write (c : Chunk) : M Writer unit unit :=
  fun w =>
    if broken w then (Exn (TypeError "The stream is closed or errored"), w)
    else (Val tt, mkWriter (written w ++ [c]) (closed w) (option_map pred (accepts w))).

(** [await writer.close()] *)
Definition writer_close : M Writer unit unit :=
  fun w =>
    if broken w then (Exn (TypeError "The stream is closed or errored"), w)
    else (Val tt, mkWriter (written w) (S (closed w)) (accepts w)).

(** The body of [while (true)]: one [reader.read()] per turn. *)
Fixpoint pump_loop (values : list (list byte)) (ending : Upstream.StreamEnd)
  : M Writer unit unit :=
  match values with
  | value :: rest =>
      (* Forward the chunk directly *)
      writer_write (Raw value) ;;
      pump_loop rest ending
  | [] =>
      match ending with
      | Upstream.EndOfStream =>
          (* Signal the end of the stream *)
          writer_write (Encoded DONE) ;;
          writer_close ;;
          return_ tt
      | Upstream.StreamError error => throw error
      end
  end.

(** The error event [`data: ${JSON.stringify({error: true, message})}\n\n`]. *)
Definition error_event (error : exn) : Text :=
  Cat (Lit "data: ")
      (Cat (Stringify (VObj [("error", VBool true); ("message", VStr (message error))]))
           (Lit (LF ++ LF))).

Definition pump (reader : Upstream.BodyStream) : M Writer unit unit :=
  try
    pump_loop (Upstream.chunks reader) (Upstream.ending reader)
  catch (fun error =>
    (* Send error message in SSE format *)
    writer_write (Encoded (error_event error)) ;;
    writer_write (Encoded DONE) ;;
    writer_close).

Inductive Body : Type :=
| NoBody                            (* null *)
| TextBody (t : Text)
| StreamBody (readable : Writer).   (* what the pump puts on the channel *)

Record Response : Type := mkResponse {
  status : Z;
  headers : list (string * string);
  body : Body
}.

Definition null_body_status (code : Z) : bool :=
  (code =? 101) || (code =? 103) || (code =? 204) || (code =? 205) || (code =? 304).

(** [new Response(body, {status, headers})], with the two checks of the
    constructor. *)
Definition new_Response (b : Body) (code : Z) (hs : list (string * string))
  : Completion Response :=
  if negb ((200 <=? code) && (code <=? 599)) then
    Throw (RangeError "init[status] must be in the range of 200 to 599, inclusive.")
  else if match b with NoBody => false | _ => null_body_status code end then
    Throw (TypeError "Response with null body status cannot have body")
  else Normal (mkResponse code (headers_of hs) b).

Record Request : Type := mkRequest {
  method : string;
  json : Completion Value       (* await request.json() *)
}.

Definition apiEndpoint : string :=
  "https://api.fireworks.ai/inference/v1/chat/completions".

(** [Object.keys(o).forEach(key => { if (o[key] === undefined || o[key] ===
    null) delete o[key]; })] *)
Definition remove_nullish (o : list (string * Value)) : list (string * Value) :=
  fold_left (fun o key => if is_nullish (lookup key o) then delete_field key o else o)
            (map fst o) o.

Definition handler (P : Platform) (request : Request) : M St Response unit :=
  (* Handle CORS for preflight requests *)
  when (method request =? "OPTIONS")%string (
    r <- lift (new_Response NoBody 204
                 [("Access-Control-Allow-Origin", "*");
                  ("Access-Control-Allow-Methods", "GET, POST, OPTIONS");
                  ("Access-Control-Allow-Headers", "Content-Type, Authorization");
                  ("Access-Control-Max-Age", "86400")]) ;;
    return_ r) ;;
  (* Only allow POST requests *)
  when (negb (method request =? "POST")%string) (
    r <- lift (new_Response
                 (TextBody (Stringify (VObj [("error", VStr "Method Not Allowed")])))
                 405
                 [("Content-Type", "application/json");
                  ("Access-Control-Allow-Origin", "*");
                  ("Allow", "POST")]) ;;
    return_ r) ;;
  try (
    (* Get the Fireworks API key from environment variables *)
    let apiKey := process_env P "FIREWORKS_API_KEY" in
    when (negb (env_set apiKey)) (
      r <- lift (new_Response
                   (TextBody (Stringify (VObj
                      [("error", VStr "API key not configured");
                       ("message", VStr "Please set FIREWORKS_API_KEY in your Vercel environment variables")])))
                   500
                   [("Content-Type", "application/json");
                    ("Access-Control-Allow-Origin", "*")]) ;;
      return_ r) ;;
    (* Parse request body *)
    requestBody <-
      (try lift (json request)
       catch (fun parseError =>
         r <- lift (new_Response
                      (TextBody (Stringify (VObj
                         [("error", VStr "Invalid JSON in request body");
                          ("message", VStr (message parseError))])))
                      400
                      [("Content-Type", "application/json");
                       ("Access-Control-Allow-Origin", "*")]) ;;
         return_ r)) ;;
    (* Log request information *)
    model <- lift (get requestBody "model") ;;
    let modelName := or_else model (VStr "unknown") in
    (* Enable streaming if not explicitly set *)
    stream <- lift (get requestBody "stream") ;;
    requestBody <- (if is_undefined stream
                    then lift (assign_strict requestBody "stream" (VBool true))
                    else ret requestBody) ;;
    (* Validate max_tokens *)
    max_tokens <- lift (get requestBody "max_tokens") ;;
    let originalMaxTokens := originalMaxTokens max_tokens in
    validatedMaxTokens <- lift (validatedMaxTokens P originalMaxTokens) ;;
    model <- lift (get requestBody "model") ;;
    messages <- lift (get requestBody "messages") ;;
    temperature <- lift (get requestBody "temperature") ;;
    top_p <- lift (get requestBody "top_p") ;;
    let cleanedParams :=
      [("model", model);
       ("messages", messages);
       ("max_tokens", VNum validatedMaxTokens);
       ("temperature", temperature);
       ("top_p", top_p);
       ("stream", VBool true)] in
    (* Remove undefined or null values *)
    let cleanedParams := remove_nullish cleanedParams in
    (* Set up the Fireworks API request *)
    let apiRequestOptions :=
      Fetch.mkRequest apiEndpoint "POST"
        (headers_of [("Content-Type", "application/json");
                     ("Authorization", "Bearer " ++ env_text apiKey)])
        (Stringify (VObj cleanedParams))
        None in
    (* Call the Fireworks API *)
    apiResponse <- fetch P apiRequestOptions ;;
    when (negb (Upstream.ok apiResponse)) (
      let errorMessage := "API Error: " ++ string_of_Z (Upstream.status apiResponse) in
      let errorMessage :=
        match Upstream.text apiResponse with
        | Normal errorText => if (errorText =? "")%string then errorMessage else errorText
        | Throw _ => errorMessage
        end in
      r <- lift (new_Response
                   (TextBody (Stringify (VObj
                      [("error", VBool true);
                       ("message", VStr errorMessage)])))
                   (Upstream.status apiResponse)
                   [("Content-Type", "application/json");
                    ("Access-Control-Allow-Origin", "*")]) ;;
      return_ r) ;;
    (* Process the API response stream *)
    reader <- match Upstream.body apiResponse with
              | Some apiStream => ret apiStream
              | None => throw (TypeError "Cannot read properties of null (reading 'getReader')")
              end ;;
    (* Start processing the stream *)
    let readable := snd (pump reader (open_channel (client_accepts P))) in
    (* Return the transformed stream as the response *)
    r <- lift (new_Response (StreamBody readable) 200
                 [("Content-Type", "text/event-stream");
                  ("Cache-Control", "no-cache");
                  ("Connection", "keep-alive");
                  ("Access-Control-Allow-Origin", "*")]) ;;
    return_ r)
  catch (fun error =>
    r <- lift (new_Response
                 (TextBody (Stringify (VObj
                    [("error", VStr (if (message error =? "")%string
                                     then "Unknown error" else message error));
                     ("details", VObj [("name", VStr (name error));
                                       ("message", VStr (message error))])])))
                 500
                 [("Content-Type", "application/json");
                  ("Access-Control-Allow-Origin", "*")]) ;;
    return_ r).

(** One invocation: the response the function returns (if it returns one)
    and the outbound calls it made. *)
Definition invoke (P : Platform) (request : Request)
  : option Response * list Fetch.Request :=
  match handler P request St0 with
  | (Ret r, s) => (Some r, calls s)
  | (_, s) => (None, calls s)
  end.

End StreamingEdge.

(** ** The Node handlers *)

Module Node.
(** The request object [req] of a serverless function: [body] is whatever
    the platform's body parser left there (a parsed value, a raw string, or
    [undefined]). *)
Record Request : Type := mkRequest {
  method : string;
  body : Value;
  query : Value
}.

(** [typeof req.body === 'string' ? JSON.parse(req.body) : req.body] *)
Definition parse_body (P : Platform) (req : Request) : Completion Value :=
  match body req with
  | VStr s => JSON_parse P s
  | other => Normal other
  end.

(** One invocation of a handler: the response object as the handler leaves
    it and the outbound calls it made. *)
Definition invoke (h : M St unit unit) : Res.t * list Fetch.Request :=
  match h St0 with
  | (_, s) => (res s, calls s)
  end.

(** The body handed to [res.json], when exactly that was written. *)
Definition json_body (r : Res.t) : option Value :=
  match Res.written r with
  | [Encoded (Stringify v)] => Some v
  | _ => None
  end.
End Node.

(** The detection of the reasoning method from the first message:
    [requestBody.messages && requestBody.messages[0] &&
     requestBody.messages[0].content], then the two [includes] tests.  It
    touches neither the response nor the clock, but it can throw. *)
Definition detect_reasoningMethod (requestBody : Value) : Completion string :=
  (messages <- get requestBody "messages" ;;
   if truthy messages then
     first <- get_first messages ;;
     if truthy first then
       content <- get first "content" ;;
       if truthy content then
         let systemPrompt := content in
         isCoD <- includes systemPrompt "Chain of Draft" ;;
         if isCoD then Normal "CoD"
         else
           isCoT <- includes systemPrompt "Chain of Thought" ;;
           if isCoT then Normal "CoT" else Normal "Standard"
       else Normal "Standard"
     else Normal "Standard"
   else Normal "Standard")%completion.

(** [if (data && !data.error) { data.performance = performance; }], in a
    CommonJS module; the value of [data] afterwards. *)
Definition add_performance (data performance : Value) : Completion Value :=
  (if truthy data then
     error <- get data "error" ;;
     if negb (truthy error)
     then Normal (assign_sloppy data "performance" performance)
     else Normal data
   else Normal data)%completion.

(** [a.k1 || a.k2] *)
Definition get_either (a : Value) (k1 k2 : string) : Completion Value :=
  (x <- get a k1 ;;
   if truthy x then Normal x else get a k2)%completion.

(** ** [proxy.js], first unit: the chat proxy with a thread id *)

Module Proxy.

Definition timeout : Z := 120000.

Definition handler (P : Platform) (req : Node.Request) : M St unit unit :=
  (* Handle OPTIONS request for CORS *)
  when (Node.method req =? "OPTIONS")%string (
    setHeader "Access-Control-Allow-Origin" "*" ;;
    setHeader "Access-Control-Allow-Headers" "Content-Type, Authorization" ;;
    setHeader "Access-Control-Allow-Methods" "POST, OPTIONS" ;;
    status 204 ;; end_ ;;
    return_ tt) ;;
  (* Only allow POST requests *)
  when (negb (Node.method req =? "POST")%string) (
    setHeader "Content-Type" "application/json" ;;
    setHeader "Access-Control-Allow-Origin" "*" ;;
    setHeader "Allow" "POST" ;;
    status 405 ;; json (VObj [("error", VStr "Method Not Allowed")]) ;;
    return_ tt) ;;
  try (
    (* Get API key from environment variable *)
    let API_KEY := process_env P "FIREWORKS_API_KEY" in
    when (negb (env_set API_KEY)) (
      setHeader "Content-Type" "application/json" ;;
      setHeader "Access-Control-Allow-Origin" "*" ;;
      status 500 ;; json (VObj [("error", VStr "API key not configured on server")]) ;;
      return_ tt) ;;
    (* Parse the request body *)
    try (
      requestBody <- lift (Node.parse_body P req) ;;
      model <- lift (get requestBody "model") ;;
      let modelName := or_else model (VStr "not specified") in
      lift (interpolate P modelName) ;;
      (* Extract thread ID for improved context isolation *)
      given <- lift (get_either requestBody "threadId" "user") ;;
      threadId <-
        (if truthy given then ret given
         else
           t <- now P ;;
           ret (VStr ("thread-" ++ string_of_Z t))) ;;
      (* Add timing metrics for monitoring CoD vs CoT performance *)
      reasoningMethod <- lift (detect_reasoningMethod requestBody) ;;
      startTime <- now P ;;
      (* Configure fetch timeout to 120 seconds *)
      try (
        (* Validate max_tokens before sending to API *)
        max_tokens <- lift (get requestBody "max_tokens") ;;
        let originalMaxTokens := originalMaxTokens max_tokens in
        validatedMaxTokens <- lift (validatedMaxTokens P originalMaxTokens) ;;
        (* Create modified request body with validated parameters *)
        let modifiedRequestBody :=
          set_field "user" threadId
            (set_field "max_tokens" (VNum validatedMaxTokens)
               (own_properties requestBody)) in
        (* Forward the request to Fireworks.ai with timeout *)
        response <- fetch P
          (Fetch.mkRequest "https://api.fireworks.ai/inference/v1/chat/completions"
             "POST"
             (headers_of [("Content-Type", "application/json");
                          ("Authorization", "Bearer " ++ env_text API_KEY)])
             (Stringify (VObj modifiedRequestBody))
             (Some timeout)) ;;
        endTime <- now P ;;
        let responseTime := endTime - startTime in
        (* Check if response is ok *)
        when (negb (Upstream.ok response)) (
          errorText <- lift (Upstream.text response) ;;
          setHeader "Content-Type" "application/json" ;;
          setHeader "Access-Control-Allow-Origin" "*" ;;
          status (Upstream.status response) ;;
          json (VObj [("error", VStr ("API Error: " ++ Upstream.statusText response));
                      ("details", VStr errorText)]) ;;
          return_ tt) ;;
        (* Get the response data *)
        data <- lift (Upstream.json response) ;;
        (* Log token usage if available *)
        usage <- lift (get data "usage") ;;
        (* Add performance metrics to response *)
        data <- lift (add_performance data
                        (VObj [("response_time_ms", num responseTime);
                               ("reasoning_method", VStr reasoningMethod);
                               ("thread_id", threadId)])) ;;
        (* Return the response from Fireworks.ai *)
        setHeader "Content-Type" "application/json" ;;
        setHeader "Access-Control-Allow-Origin" "*" ;;
        setHeader "Cache-Control" "no-cache, no-store, must-revalidate" ;;
        status 200 ;; json data)
      catch (fun fetchError =>
        (* Check if this is an abort error (timeout) *)
        when (name fetchError =? "AbortError")%string (
          setHeader "Content-Type" "application/json" ;;
          setHeader "Access-Control-Allow-Origin" "*" ;;
          status 504 ;;
          json (VObj [("error", VStr "Gateway Timeout");
                      ("message", VStr "The request to the LLM API took too long to complete (>120 seconds). Try reducing complexity or using fewer tokens.")]) ;;
          return_ tt) ;;
        setHeader "Content-Type" "application/json" ;;
        setHeader "Access-Control-Allow-Origin" "*" ;;
        status 500 ;;
        json (VObj [("error", VStr "Request Failed");
                    ("message", VStr (message fetchError))])))
    catch (fun parseError =>
      setHeader "Content-Type" "application/json" ;;
      setHeader "Access-Control-Allow-Origin" "*" ;;
      status 400 ;;
      json (VObj [("error", VStr "Bad Request");
                  ("message", VStr ("Error processing request: " ++ message parseError))])))
  catch (fun error =>
    setHeader "Content-Type" "application/json" ;;
    setHeader "Access-Control-Allow-Origin" "*" ;;
    status 500 ;;
    json (VObj [("error", VStr "Internal Server Error");
                ("message", VStr (message error))])).

Definition invoke (P : Platform) (req : Node.Request) : Res.t * list Fetch.Request :=
  Node.invoke (handler P req).

End Proxy.

(** ** [proxy.js], second unit: the Abacus.AI research agent *)

Module ResearchAgent.

Definition timeout : Z := 180000.

Definition abacusAPIUrl : string := "https://api.abacus.ai/api".

Definition handler (P : Platform) (req : Node.Request) : M St unit unit :=
  (* Handle CORS for preflight requests *)
  when (Node.method req =? "OPTIONS")%string (
    setHeader "Access-Control-Allow-Origin" "*" ;;
    setHeader "Access-Control-Allow-Methods" "GET, POST, OPTIONS" ;;
    setHeader "Access-Control-Allow-Headers" "Content-Type, Authorization" ;;
    setHeader "Access-Control-Max-Age" "86400" ;;
    status 204 ;; end_ ;;
    return_ tt) ;;
  (* Only allow POST requests *)
  when (negb (Node.method req =? "POST")%string) (
    setHeader "Content-Type" "application/json" ;;
    setHeader "Access-Control-Allow-Origin" "*" ;;
    setHeader "Allow" "POST" ;;
    status 405 ;; json (VObj [("error", VStr "Method Not Allowed")]) ;;
    return_ tt) ;;
  try (
    (* Get API key and deployment token from environment variables *)
    let DEPLOYMENT_TOKEN := process_env P "ABACUS_DEPLOYMENT_TOKEN" in
    let DEPLOYMENT_ID := process_env P "ABACUS_DEPLOYMENT_ID" in
    when (negb (env_set DEPLOYMENT_TOKEN) || negb (env_set DEPLOYMENT_ID)) (
      setHeader "Content-Type" "application/json" ;;
      setHeader "Access-Control-Allow-Origin" "*" ;;
      status 500 ;;
      json (VObj [("error", VStr "Abacus.AI credentials not configured");
                  ("message", VStr "Please set ABACUS_DEPLOYMENT_TOKEN and ABACUS_DEPLOYMENT_ID in your Vercel environment variables")]) ;;
      return_ tt) ;;
    (* Parse request body *)
    requestBody <-
      (try lift (Node.parse_body P req)
       catch (fun parseError =>
         setHeader "Content-Type" "application/json" ;;
         setHeader "Access-Control-Allow-Origin" "*" ;;
         status 400 ;;
         json (VObj [("error", VStr "Invalid JSON in request body");
                     ("message", VStr (message parseError))]) ;;
         return_ tt)) ;;
    (* Validate the query parameter *)
    query <- lift (get requestBody "query") ;;
    when (negb (truthy query)) (
      setHeader "Content-Type" "application/json" ;;
      setHeader "Access-Control-Allow-Origin" "*" ;;
      status 400 ;; json (VObj [("error", VStr "Missing required parameter: query")]) ;;
      return_ tt) ;;
    requestBody_email <- lift (get requestBody "email") ;;
    let email := or_else requestBody_email VNull in
    lift (substring_100 query) ;;
    try (
      (* Prepare the keyword arguments *)
      let keywordArgs := [("subject", query)] in
      let keywordArgs :=
        if truthy email then set_field "email" email keywordArgs else keywordArgs in
      let payload :=
        [("deployment_token", env_value DEPLOYMENT_TOKEN);
         ("deployment_id", env_value DEPLOYMENT_ID);
         ("keyword_arguments", VObj keywordArgs)] in
      (* Make the API call to Abacus.AI *)
      response <- fetch P
        (Fetch.mkRequest (abacusAPIUrl ++ "/agents/execute")
           "POST"
           (headers_of [("Content-Type", "application/json")])
           (Stringify (VObj payload))
           (Some timeout)) ;;
      (* Check if response is ok *)
      when (negb (Upstream.ok response)) (
        errorText <- lift (Upstream.text response) ;;
        setHeader "Content-Type" "application/json" ;;
        setHeader "Access-Control-Allow-Origin" "*" ;;
        status (Upstream.status response) ;;
        json (VObj [("error", VStr ("Abacus.AI API Error: " ++ Upstream.statusText response));
                    ("details", VStr errorText)]) ;;
        return_ tt) ;;
      (* Parse the response data *)
      data <- lift (Upstream.json response) ;;
      (* Format the research papers data for the chatbot *)
      research_papers <- lift (get data "research_papers") ;;
      let researchPapers := or_else research_papers (VStr "No research papers found.") in
      (* Return processed response *)
      setHeader "Content-Type" "application/json" ;;
      setHeader "Access-Control-Allow-Origin" "*" ;;
      setHeader "Cache-Control" "no-cache, no-store, must-revalidate" ;;
      status 200 ;;
      json (VObj [("research_papers", researchPapers);
                  ("success", VBool true)]))
    catch (fun fetchError =>
      (* Check if this is an abort error (timeout) *)
      when (name fetchError =? "AbortError")%string (
        setHeader "Content-Type" "application/json" ;;
        setHeader "Access-Control-Allow-Origin" "*" ;;
        status 504 ;;
        json (VObj [("error", VStr "Gateway Timeout");
                    ("message", VStr "The research agent request took too long to complete (>3 minutes). Try a more specific research query.")]) ;;
        return_ tt) ;;
      (* Handle other fetch errors *)
      setHeader "Content-Type" "application/json" ;;
      setHeader "Access-Control-Allow-Origin" "*" ;;
      status 500 ;;
      json (VObj [("error", VStr "Request Failed");
                  ("message", VStr (message fetchError))])))
  catch (fun error =>
    setHeader "Content-Type" "application/json" ;;
    setHeader "Access-Control-Allow-Origin" "*" ;;
    status 500 ;;
    json (VObj [("error", VStr "Internal Server Error");
                ("message", VStr (message error))])).

Definition invoke (P : Platform) (req : Node.Request) : Res.t * list Fetch.Request :=
  Node.invoke (handler P req).

End ResearchAgent.

(** ** [abacus-websearch.js], first unit: the Abacus.AI web search agent *)

Module WebSearchAgent.

Definition timeout : Z := 30000.

Definition abacusAPIUrl : string := "https://api.abacus.ai/api/v0/deployment/predict".

Definition handler (P : Platform) (req : Node.Request) : M St unit unit :=
  (* Handle CORS for preflight requests *)
  when (Node.method req =? "OPTIONS")%string (
    setHeader "Access-Control-Allow-Origin" "*" ;;
    setHeader "Access-Control-Allow-Methods" "GET, POST, OPTIONS" ;;
    setHeader "Access-Control-Allow-Headers" "Content-Type, Authorization" ;;
    setHeader "Access-Control-Max-Age" "86400" ;;
    status 204 ;; end_ ;;
    return_ tt) ;;
  (* Only allow POST requests *)
  when (negb (Node.method req =? "POST")%string) (
    setHeader "Content-Type" "application/json" ;;
    setHeader "Access-Control-Allow-Origin" "*" ;;
    setHeader "Allow" "POST" ;;
    status 405 ;; json (VObj [("error", VStr "Method Not Allowed")]) ;;
    return_ tt) ;;
  try (
    (* Get ALL needed API credentials from environment variables *)
    let DEPLOYMENT_TOKEN := process_env P "ABACUS_WEBSEARCH_TOKEN" in
    let DEPLOYMENT_ID := process_env P "ABACUS_WEBSEARCH_ID" in
    when (negb (env_set DEPLOYMENT_TOKEN) || negb (env_set DEPLOYMENT_ID)) (
      setHeader "Content-Type" "application/json" ;;
      setHeader "Access-Control-Allow-Origin" "*" ;;
      status 500 ;;
      json (VObj [("error", VStr "Abacus.AI Web Search credentials not configured");
                  ("message", VStr "Please set ABACUS_WEBSEARCH_TOKEN and ABACUS_WEBSEARCH_ID in your Vercel environment variables")]) ;;
      return_ tt) ;;
    (* Parse request body *)
    requestBody <-
      (try lift (Node.parse_body P req)
       catch (fun parseError =>
         setHeader "Content-Type" "application/json" ;;
         setHeader "Access-Control-Allow-Origin" "*" ;;
         status 400 ;;
         json (VObj [("error", VStr "Invalid JSON in request body");
                     ("message", VStr (message parseError))]) ;;
         return_ tt)) ;;
    (* Validate the query parameter *)
    query <- lift (get requestBody "query") ;;
    when (negb (truthy query)) (
      setHeader "Content-Type" "application/json" ;;
      setHeader "Access-Control-Allow-Origin" "*" ;;
      status 400 ;; json (VObj [("error", VStr "Missing required parameter: query")]) ;;
      return_ tt) ;;
    lift (substring_100 query) ;;
    try (
      let payload :=
        [("deploymentId", env_value DEPLOYMENT_ID);
         ("input", VObj [("query", query)])] in
      (* Make the API call to Abacus.AI *)
      response <- fetch P
        (Fetch.mkRequest abacusAPIUrl
           "POST"
           (headers_of [("Content-Type", "application/json");
                        ("Authorization", "Bearer " ++ env_text DEPLOYMENT_TOKEN)])
           (Stringify (VObj payload))
           (Some timeout)) ;;
      (* Check if response is ok *)
      when (negb (Upstream.ok response)) (
        errorText <- lift (Upstream.text response) ;;
        setHeader "Content-Type" "application/json" ;;
        setHeader "Access-Control-Allow-Origin" "*" ;;
        status (Upstream.status response) ;;
        json (VObj [("error", VStr ("Abacus.AI API Error: " ++ Upstream.statusText response));
                    ("details", VStr errorText)]) ;;
        return_ tt) ;;
      (* Parse the response data *)
      data <- lift (Upstream.json response) ;;
      (* Format the search results: data.output?.search_output *)
      output <- lift (get data "output") ;;
      search_output <- (if is_nullish output then ret VUndefined
                        else lift (get output "search_output")) ;;
      let searchResults := or_else search_output (VStr "No search results found.") in
      (* Return processed response *)
      setHeader "Content-Type" "application/json" ;;
      setHeader "Access-Control-Allow-Origin" "*" ;;
      setHeader "Cache-Control" "no-cache, no-store, must-revalidate" ;;
      status 200 ;;
      json (VObj [("search_results", searchResults);
                  ("success", VBool true)]))
    catch (fun fetchError =>
      (* Check if this is an abort error (timeout) *)
      when (name fetchError =? "AbortError")%string (
        setHeader "Content-Type" "application/json" ;;
        setHeader "Access-Control-Allow-Origin" "*" ;;
        status 504 ;;
        json (VObj [("error", VStr "Gateway Timeout");
                    ("message", VStr "The web search request took too long to complete (>30 seconds). Try a more specific search query.")]) ;;
        return_ tt) ;;
      (* Handle other fetch errors *)
      setHeader "Content-Type" "application/json" ;;
      setHeader "Access-Control-Allow-Origin" "*" ;;
      status 500 ;;
      json (VObj [("error", VStr "Request Failed");
                  ("message", VStr (message fetchError))])))
  catch (fun error =>
    setHeader "Content-Type" "application/json" ;;
    setHeader "Access-Control-Allow-Origin" "*" ;;
    status 500 ;;
    json (VObj [("error", VStr "Internal Server Error");
                ("message", VStr (message error))])).

Definition invoke (P : Platform) (req : Node.Request) : Res.t * list Fetch.Request :=
  Node.invoke (handler P req).

End WebSearchAgent.

(** ** [abacus-websearch.js], second unit: the chat proxy with a streaming mode *)

Module FireworksProxy.

Definition timeout : Z := 120000.

Definition handler (P : Platform) (req : Node.Request) : M St unit unit :=
  (* Handle CORS for preflight requests *)
  when (Node.method req =? "OPTIONS")%string (
    setHeader "Access-Control-Allow-Origin" "*" ;;
    setHeader "Access-Control-Allow-Methods" "GET, POST, OPTIONS" ;;
    setHeader "Access-Control-Allow-Headers" "Content-Type, Authorization" ;;
    setHeader "Access-Control-Max-Age" "86400" ;;
    status 204 ;; end_ ;;
    return_ tt) ;;
  (* Only allow POST requests *)
  when (negb (Node.method req =? "POST")%string) (
    setHeader "Content-Type" "application/json" ;;
    setHeader "Access-Control-Allow-Origin" "*" ;;
    setHeader "Allow" "POST" ;;
    status 405 ;; json (VObj [("error", VStr "Method Not Allowed")]) ;;
    return_ tt) ;;
  (* Flag to track if response has been sent: false in the initial state *)
  try (
    (* Get API key from environment variable *)
    let apiKey := process_env P "FIREWORKS_API_KEY" in
    when (negb (env_set apiKey)) (
      setHeader "Content-Type" "application/json" ;;
      setHeader "Access-Control-Allow-Origin" "*" ;;
      status 500 ;;
      json (VObj [("error", VStr "API key not configured");
                  ("message", VStr "Please set FIREWORKS_API_KEY in your Vercel environment variables")]) ;;
      set_responseSent ;;
      return_ tt) ;;
    (* Parse request body *)
    requestBody <-
      (try lift (Node.parse_body P req)
       catch (fun parseError =>
         setHeader "Content-Type" "application/json" ;;
         setHeader "Access-Control-Allow-Origin" "*" ;;
         status 400 ;;
         json (VObj [("error", VStr "Invalid JSON in request body");
                     ("message", VStr (message parseError))]) ;;
         set_responseSent ;;
         return_ tt)) ;;
    (* Log request info (non-sensitive) *)
    model <- lift (get requestBody "model") ;;
    let modelName := or_else model (VStr "not specified") in
    lift (interpolate P modelName) ;;
    (* Add timing metrics for monitoring CoD vs CoT performance *)
    reasoningMethod <- lift (detect_reasoningMethod requestBody) ;;
    (* Check if this is a streaming request *)
    stream <- lift (get requestBody "stream") ;;
    let isStreaming := is_true stream in
    (* Validate max_tokens *)
    max_tokens <- lift (get requestBody "max_tokens") ;;
    let originalMaxTokens := originalMaxTokens max_tokens in
    validatedMaxTokens <- lift (validatedMaxTokens P originalMaxTokens) ;;
    startTime <- now P ;;
    (* Forward the request to Fireworks.ai with timeout *)
    try (
      response <- fetch P
        (Fetch.mkRequest "https://api.fireworks.ai/inference/v1/chat/completions"
           "POST"
           (headers_of [("Content-Type", "application/json");
                        ("Authorization", "Bearer " ++ env_text apiKey)])
           (Stringify (VObj (set_field "max_tokens" (VNum validatedMaxTokens)
                               (own_properties requestBody))))
           (Some timeout)) ;;
      endTime <- now P ;;
      let responseTime := endTime - startTime in
      (* Check if response is ok *)
      when (negb (Upstream.ok response)) (
        (* Try to get detailed error info *)
        let errorDetails := "Status code: " ++ string_of_Z (Upstream.status response) in
        let errorDetails :=
          match Upstream.text response with
          | Normal errorText => errorText
          | Throw _ => errorDetails
          end in
        setHeader "Content-Type" "application/json" ;;
        setHeader "Access-Control-Allow-Origin" "*" ;;
        status (Upstream.status response) ;;
        json (VObj [("error", VStr ("API Error: " ++ Upstream.statusText response));
                    ("details", VStr errorDetails)]) ;;
        set_responseSent ;;
        return_ tt) ;;
      (* Handle streaming response - use Node.js pipe instead of getReader *)
      when isStreaming (
        (* Set appropriate headers for streaming *)
        setHeader "Content-Type" "text/event-stream" ;;
        setHeader "Cache-Control" "no-cache" ;;
        setHeader "Connection" "keep-alive" ;;
        setHeader "Access-Control-Allow-Origin" "*" ;;
        (* Use pipe for Node.js environment *)
        source <- match Upstream.body response with
                  | Some b => ret b
                  | None => throw (TypeError "Cannot read properties of null (reading 'pipe')")
                  end ;;
        pipe source ;;
        set_responseSent ;;
        return_ tt) ;;
      (* For non-streaming responses, parse as JSON and return normally *)
      data <- lift (Upstream.json response) ;;
      (* Add performance metrics to response *)
      data <- lift (add_performance data
                      (VObj [("response_time_ms", num responseTime);
                             ("reasoning_method", VStr reasoningMethod)])) ;;
      (* Return the response from Fireworks.ai *)
      setHeader "Content-Type" "application/json" ;;
      setHeader "Access-Control-Allow-Origin" "*" ;;
      setHeader "Cache-Control" "no-cache, no-store, must-revalidate" ;;
      status 200 ;; json data ;;
      set_responseSent ;;
      return_ tt)
    catch (fun fetchError =>
      (* Don't try to send response if one was already sent *)
      sent <- get_responseSent ;;
      when sent (return_ tt) ;;
      (* Check if this is an abort error (timeout) *)
      when (name fetchError =? "AbortError")%string (
        setHeader "Content-Type" "application/json" ;;
        setHeader "Access-Control-Allow-Origin" "*" ;;
        status 504 ;;
        json (VObj [("error", VStr "Gateway Timeout");
                    ("message", VStr "The request to the LLM API took too long to complete (>120 seconds). Try reducing complexity or using fewer tokens.")]) ;;
        return_ tt) ;;
      (* Handle other fetch errors *)
      setHeader "Content-Type" "application/json" ;;
      setHeader "Access-Control-Allow-Origin" "*" ;;
      status 500 ;;
      json (VObj [("error", VStr "Request Failed");
                  ("message", VStr (message fetchError))])))
  catch (fun error =>
    (* Don't try to send response if one was already sent *)
    sent <- get_responseSent ;;
    when sent (return_ tt) ;;
    setHeader "Content-Type" "application/json" ;;
    setHeader "Access-Control-Allow-Origin" "*" ;;
    status 500 ;;
    json (VObj [("error", VStr "Internal Server Error");
                ("message", VStr (message error))])).

Definition invoke (P : Platform) (req : Node.Request) : Res.t * list Fetch.Request :=
  Node.invoke (handler P req).

End FireworksProxy.

(** * Vocabulary of the specification *)

(** The clamp of the specification: the nearest point of [lo, hi]. *)
Definition clamp (lo hi x : Q) : Q :=
  if Qle_bool lo x then (if Qle_bool x hi then x else hi) else lo.

(** The header set grants every origin. *)
Definition cors (hs : list (string * string)) : Prop :=
  header "Access-Control-Allow-Origin" hs = Some "*".

(** A client with capacity [capacity] takes more than [k] writes. *)
Definition takes (capacity : option nat) (k : nat) : Prop :=
  match capacity with
  | None => True
  | Some n => (k < n)%nat
  end.


(** ** The five endpoints, seen alike *)

Inductive Endpoint : Type :=
| EStreamingEdge      (* streaming-edge.js *)
| EProxy              (* proxy.js, first unit *)
| EResearchAgent      (* proxy.js, second unit *)
| EWebSearchAgent     (* abacus-websearch.js, first unit *)
| EFireworksProxy.    (* abacus-websearch.js, second unit *)

Module Http.
(** An inbound HTTP request, with what either platform derives from it:
    [body] and [query] are [req.body] and [req.query] of a Node function,
    [json] is the outcome of [await request.json()] in the edge function. *)
Record Request : Type := mkRequest {
  method : string;
  body : Value;
  query : Value;
  json : Completion Value
}.

(** What the client gets: status, headers, the chunks of the body in
    order, and how many times the channel was closed. *)
Record Reply : Type := mkReply {
  status : Z;
  headers : list (string * string);
  sent : list Chunk;
  closed : nat
}.

Definition node (req : Request) : Node.Request :=
  Node.mkRequest (method req) (body req) (query req).

Definition edge (req : Request) : StreamingEdge.Request :=
  StreamingEdge.mkRequest (method req) (json req).
End Http.

Definition reply_of_res (r : Res.t) : Http.Reply :=
  Http.mkReply (Res.statusCode r) (Res.headers r) (Res.written r) (Res.ended r).

(** A [Response] whose body is a text is delivered whole and closed; a
    streamed one carries what the pump wrote.  An invocation that returned
    no [Response] at all is the platform's bare failure. *)
Definition reply_of_response (r : option StreamingEdge.Response) : Http.Reply :=
  match r with
  | Some r =>
      match StreamingEdge.body r with
      | StreamingEdge.NoBody =>
          Http.mkReply (StreamingEdge.status r) (StreamingEdge.headers r) [] 1
      | StreamingEdge.TextBody t =>
          Http.mkReply (StreamingEdge.status r) (StreamingEdge.headers r) [Encoded t] 1
      | StreamingEdge.StreamBody w =>
          Http.mkReply (StreamingEdge.status r) (StreamingEdge.headers r)
                  (StreamingEdge.written w) (StreamingEdge.closed w)
      end
  | None => Http.mkReply 500 [] [] 0
  end.

(** One request served by one endpoint: the reply and the outbound calls. *)
Definition serve (e : Endpoint) (P : Platform) (req : Http.Request)
  : Http.Reply * list Fetch.Request :=
  match e with
  | EStreamingEdge =>
      let '(r, cs) := StreamingEdge.invoke P (Http.edge req) in
      (reply_of_response r, cs)
  | EProxy =>
      let '(r, cs) := Proxy.invoke P (Http.node req) in
      (reply_of_res r, cs)
  | EResearchAgent =>
      let '(r, cs) := ResearchAgent.invoke P (Http.node req) in
      (reply_of_res r, cs)
  | EWebSearchAgent =>
      let '(r, cs) := WebSearchAgent.invoke P (Http.node req) in
      (reply_of_res r, cs)
  | EFireworksProxy =>
      let '(r, cs) := FireworksProxy.invoke P (Http.node req) in
      (reply_of_res r, cs)
  end.

(** The request body as the handler first holds it in [requestBody]. *)
Definition inbound (e : Endpoint) (P : Platform) (req : Http.Request) : Completion Value :=
  match e with
  | EStreamingEdge => Http.json req
  | _ => Node.parse_body P (Http.node req)
  end.

(** The chat endpoints, as opposed to the agent endpoints. *)
Definition chat (e : Endpoint) : bool :=
  match e with
  | EStreamingEdge | EProxy | EFireworksProxy => true
  | EResearchAgent | EWebSearchAgent => false
  end.

(** The environment variables an endpoint requires. *)
Definition secrets (e : Endpoint) : list string :=
  match e with
  | EStreamingEdge | EProxy | EFireworksProxy => ["FIREWORKS_API_KEY"]
  | EResearchAgent => ["ABACUS_DEPLOYMENT_TOKEN"; "ABACUS_DEPLOYMENT_ID"]
  | EWebSearchAgent => ["ABACUS_WEBSEARCH_TOKEN"; "ABACUS_WEBSEARCH_ID"]
  end.

(** The environment variable that holds the credential of the upstream. *)
Definition credential (e : Endpoint) : string :=
  match e with
  | EStreamingEdge | EProxy | EFireworksProxy => "FIREWORKS_API_KEY"
  | EResearchAgent => "ABACUS_DEPLOYMENT_TOKEN"
  | EWebSearchAgent => "ABACUS_WEBSEARCH_TOKEN"
  end.

(** The bound on the upstream call, in milliseconds, where there is one. *)
Definition timeout (e : Endpoint) : option Z :=
  match e with
  | EStreamingEdge => None
  | EProxy => Some Proxy.timeout
  | EResearchAgent => Some ResearchAgent.timeout
  | EWebSearchAgent => Some WebSearchAgent.timeout
  | EFireworksProxy => Some FireworksProxy.timeout
  end.

(** The same bound as a person reads it. *)
Definition duration (e : Endpoint) : string :=
  match e with
  | EStreamingEdge => ""
  | EProxy | EFireworksProxy => "120 seconds"
  | EResearchAgent => "3 minutes"
  | EWebSearchAgent => "30 seconds"
  end.

(** The JSON value a reply consists of, when it is one serialized value. *)
Definition reply_json (r : Http.Reply) : option Value :=
  match Http.sent r with
  | [Encoded (Stringify v)] => Some v
  | _ => None
  end.

(** A top-level string field of the reply mentions [word]. *)
Definition mentions (r : Http.Reply) (word : string) : bool :=
  match reply_json r with
  | Some (VObj fields) =>
      existsb (fun kv => match snd kv with
                         | VStr s => str_includes s word
                         | _ => false
                         end) fields
  | _ => false
  end.

(** A field of the reply, when the reply is a JSON object. *)
Definition reply_field (r : Http.Reply) (k : string) : option Value :=
  match reply_json r with
  | Some (VObj fields) => Some (lookup k fields)
  | _ => None
  end.

(** A field of the object serialized as the body of an outbound call. *)
Definition outbound_field (c : Fetch.Request) (k : string) : option Value :=
  match Fetch.body c with
  | Stringify (VObj fields) => Some (lookup k fields)
  | _ => None
  end.

(** The keys of the object serialized as the body of an outbound call. *)
Definition outbound_fields (c : Fetch.Request) : list (string * Value) :=
  match Fetch.body c with
  | Stringify (VObj fields) => fields
  | _ => []
  end.


(** ** Concrete surroundings, for the examples *)

(** A platform with the given environment, whose upstream settles with
    [answer] after [latency] milliseconds and whose client takes everything.
    The clock starts at an arbitrary instant and advances one millisecond per
    reading; text bodies fail to parse and string conversions give NaN. *)
Definition example_platform (env : string -> option string) (latency : Z)
  (answer : Completion Upstream.Response) : Platform :=
  mkPlatform env
    (fun n => 1700000000000 + Z.of_nat n)
    (fun _ => Throw (Error "SyntaxError" "Unexpected token"))
    (fun _ => NaN)
    (fun _ => Normal "[object Object]")
    latency
    (fun _ => answer)
    None.

Definition no_env : string -> option string := fun _ => None.

Definition full_env : string -> option string := fun k => Some ("secret-" ++ k).

Definition bytes_a : list byte := [Byte.x61].
Definition bytes_b : list byte := [Byte.x62].

(** An upstream answer 200 whose body is two chunks, then the end. *)
Definition answer_ok : Upstream.Response :=
  Upstream.mkResponse 200 "OK" (Normal "ab")
    (Normal (VObj [("id", VStr "cmpl-1")]))
    (Some (Upstream.mkBody [bytes_a; bytes_b] Upstream.EndOfStream)).

(** An upstream answer 200 whose body fails after one chunk. *)
Definition answer_broken : Upstream.Response :=
  Upstream.mkResponse 200 "OK" (Throw (Error "Error" "socket hang up"))
    (Throw (Error "Error" "socket hang up"))
    (Some (Upstream.mkBody [bytes_a]
             (Upstream.StreamError (Error "Error" "socket hang up")))).

(** An upstream answer 429 with body ["rate limited"]. *)
Definition answer_429 : Upstream.Response :=
  Upstream.mkResponse 429 "Too Many Requests" (Normal "rate limited")
    (Throw (Error "SyntaxError" "Unexpected token r in JSON at position 0"))
    None.

(** An upstream answer 429 whose body cannot be read. *)
Definition answer_429_unreadable : Upstream.Response :=
  Upstream.mkResponse 429 "Too Many Requests"
    (Throw (Error "Error" "Premature close"))
    (Throw (Error "Error" "Premature close"))
    None.

Definition post (b : Value) : Http.Request :=
  Http.mkRequest "POST" b VUndefined (Normal b).

Definition hi_messages : Value :=
  VArr [VObj [("role", VStr "user"); ("content", VStr "hi")]].

(** [{model: "x", messages: [{role: "user", content: "hi"}], max_tokens}] *)
Definition chat_body (max_tokens : Value) : Value :=
  VObj [("model", VStr "x"); ("messages", hi_messages); ("max_tokens", max_tokens)].

(** [{query: "cats"}] *)
Definition query_body : Value := VObj [("query", VStr "cats")].


(** The timer behind the signal of call [c] fires before [fetch] settles, so
    the controller aborts the call. *)
Definition aborted (P : Platform) (c : Fetch.Request) : Prop :=
  exists T, Fetch.signal c = Some T /\ T < fetch_latency P.


(** A [Response] with a body may carry status [code]: the two checks of the
    constructor pass. *)
Definition relayable (code : Z) : bool :=
  (200 <=? code) && (code <=? 599) && negb (StreamingEdge.null_body_status code).

(** The prefix an endpoint puts before the upstream status text. *)
Definition error_prefix (e : Endpoint) : string :=
  match e with
  | EResearchAgent | EWebSearchAgent => "Abacus.AI API Error: "
  | _ => "API Error: "
  end.


(** A field survives the removal of the undefined and null values. *)
Definition keeps (kv : string * Value) : bool := negb (is_nullish (snd kv)).

(** [{model: "x", messages: [...], temperature: null}] *)
Definition chat_body_null_temperature : Value :=
  VObj [("model", VStr "x"); ("messages", hi_messages); ("temperature", VNull)].

(** [{model: "x", messages: [...], stream}] *)
Definition chat_body_stream (stream : Value) : Value :=
  VObj [("model", VStr "x"); ("messages", hi_messages); ("stream", stream)].

(** The call an invocation made, for the examples that made one. *)
Definition the_call_of (calls : list Fetch.Request) : Fetch.Request :=
  hd (Fetch.mkRequest "" "" [] (Lit "") None) calls.


(** Everything the pump means to put on the channel for an upstream body:
    the chunks, then the sentinel, preceded by one error event when the body
    failed. *)
Definition script (source : Upstream.BodyStream) : list Chunk :=
  (map Raw (Upstream.chunks source) ++
   match Upstream.ending source with
   | Upstream.EndOfStream => [Encoded DONE]
   | Upstream.StreamError error =>
       [Encoded (StreamingEdge.error_event error); Encoded DONE]
   end)%list.


(** ** Vocabulary of the further properties *)

(** Every secret the endpoint requires is set. *)
Definition secrets_set (e : Endpoint) (P : Platform) : Prop :=
  forall k, In k (secrets e) -> env_set (process_env P k) = true.

(** The address an endpoint calls. *)
Definition upstream_url (e : Endpoint) : string :=
  match e with
  | EStreamingEdge | EProxy | EFireworksProxy =>
      "https://api.fireworks.ai/inference/v1/chat/completions"
  | EResearchAgent => "https://api.abacus.ai/api/agents/execute"
  | EWebSearchAgent => "https://api.abacus.ai/api/v0/deployment/predict"
  end.

(** NaN, or a number of the closed range [1, 8192]. *)
Definition in_range (n : number) : Prop :=
  n = NaN \/ exists q, n = Fin q /\ (1 <= q)%Q /\ (q <= 8192)%Q.

(** A request with method [m] and nothing else. *)
Definition bare (m : string) : Http.Request :=
  Http.mkRequest m VUndefined VUndefined (Normal VNull).

(** A POST whose raw body is the text [s], which does not parse. *)
Definition post_text (s : string) : Http.Request :=
  Http.mkRequest "POST" (VStr s) VUndefined
    (Throw (Error "SyntaxError" "Unexpected token")).

(** An upstream answer 200 with [{research_papers: "three papers"}]. *)
Definition answer_papers : Upstream.Response :=
  Upstream.mkResponse 200 "OK" (Normal "")
    (Normal (VObj [("research_papers", VStr "three papers")])) None.

Definition network_down : exn := Error "FetchError" "getaddrinfo ENOTFOUND".

(** * Properties *)

Unset Implicit Arguments.

(** ** Objects *)

Lemma lookup_set_field_same k v fields : lookup k (set_field k v fields) = v.
Proof.
  induction fields as [|[k' v'] rest IH]; simpl.
  - now rewrite String.eqb_refl.
  - destruct (k' =? k)%string eqn:E; simpl.
    + now rewrite String.eqb_refl.
    + now rewrite E.
Qed.

Lemma lookup_set_field_other k k' v fields :
  k' <> k -> lookup k' (set_field k v fields) = lookup k' fields.
Proof.
  intros Hne.
  induction fields as [|[k0 v0] rest IH]; simpl.
  - destruct (k =? k')%string eqn:E; [|reflexivity].
    apply String.eqb_eq in E. congruence.
  - destruct (k0 =? k)%string eqn:E; simpl.
    + apply String.eqb_eq in E. subst k0.
      destruct (k =? k')%string eqn:E'; [|reflexivity].
      apply String.eqb_eq in E'. congruence.
    + now rewrite IH.
Qed.

Lemma lookup_In k fields :
  lookup k fields = VUndefined \/ In (k, lookup k fields) fields.
Proof.
  induction fields as [|[k' v'] rest IH]; simpl; [now left|].
  destruct (k' =? k)%string eqn:E.
  - apply String.eqb_eq in E. subst. right. now left.
  - destruct IH as [IH|IH]; [now left|right; now right].
Qed.

(** ** The validation of [max_tokens] *)

Lemma truthy_false_original mt :
  truthy mt = false -> originalMaxTokens mt = num 4096.
Proof. unfold originalMaxTokens, or_else. now intros ->. Qed.

Lemma truthy_true_original mt :
  truthy mt = true -> originalMaxTokens mt = mt.
Proof. unfold originalMaxTokens, or_else. now intros ->. Qed.

Lemma validated_default P mt :
  truthy mt = false ->
  validatedMaxTokens P (originalMaxTokens mt) = Normal (Fin (inject_Z 4096)).
Proof. intros H. now rewrite (truthy_false_original _ H). Qed.

Lemma validated_number P q :
  validatedMaxTokens P (VNum (Fin q)) = Normal (Fin (clamp 1 8192 q)).
Proof.
  unfold validatedMaxTokens, clamp, Math_max, Math_min, ToNumber.
  destruct (Qle_bool 1 q) eqn:E1.
  - destruct (Qle_bool q 8192); reflexivity.
  - reflexivity.
Qed.

Lemma clamp_spec q :
  (1 <= clamp 1 8192 q)%Q /\ (clamp 1 8192 q <= 8192)%Q /\
  (q < 1 -> clamp 1 8192 q = 1)%Q /\
  (8192 < q -> clamp 1 8192 q = 8192)%Q /\
  (1 <= q -> q <= 8192 -> clamp 1 8192 q = q)%Q.
Proof.
  unfold clamp.
  destruct (Qle_bool 1 q) eqn:E1; [destruct (Qle_bool q 8192) eqn:E2|].
  - apply Qle_bool_iff in E1, E2. repeat split; auto; intros; lra.
  - apply Qle_bool_iff in E1.
    assert (~ (q <= 8192)%Q) by (rewrite <- Qle_bool_iff; congruence).
    repeat split; auto; intros; lra.
  - assert (~ (1 <= q)%Q) by (rewrite <- Qle_bool_iff; congruence).
    repeat split; auto; intros; lra.
Qed.

(** ** The streaming relay of [streaming-edge.js] *)

Module PumpFacts.
Import StreamingEdge.

(** As long as the client keeps taking writes, the loop forwards every
    chunk, unmodified and in order, and reaches the end of the upstream
    body. *)
Lemma pump_loop_forwards (values : list (list byte)) : forall ending w,
  closed w = 0%nat ->
  takes (accepts w) (List.length values) ->
  pump_loop values ending w =
  pump_loop [] ending
    (mkWriter (written w ++ map Raw values) 0
              (option_map (fun n => (n - List.length values)%nat) (accepts w))).
Proof.
  induction values as [|value rest IH]; intros ending [wr cl acc] Hcl Htk;
    simpl in Hcl, Htk; subst cl.
  - simpl. rewrite app_nil_r.
    destruct acc as [n|]; simpl; [rewrite Nat.sub_0_r|]; reflexivity.
  - cbn [pump_loop]. unfold bind at 1. unfold writer_write at 1.
    unfold broken. cbn [accepts closed written Nat.eqb negb].
    destruct acc as [[|n]|]; simpl in Htk; try lia.
    + cbn [option_map pred].
      rewrite IH; cbn [closed accepts written]; [|reflexivity|simpl; lia].
      cbn [pump_loop map List.length option_map Nat.sub].
      now rewrite <- app_assoc.
    + cbn [option_map].
      rewrite IH; cbn [closed accepts written]; [|reflexivity|exact I].
      cbn [pump_loop map option_map].
      now rewrite <- app_assoc.
Qed.

Ltac pump_tail E :=
  cbn [option_map]; try rewrite E;
  cbv [pump_loop bind writer_write writer_close return_ throw broken
       accepts closed written option_map pred Nat.eqb negb snd];
  split; [now rewrite <- ?app_assoc | reflexivity].

(** Upstream completion: chunks, the sentinel, one close. *)
Lemma pump_done (values : list (list byte)) capacity :
  takes capacity (S (List.length values)) ->
  let w := snd (pump (Upstream.mkBody values Upstream.EndOfStream)
                     (open_channel capacity)) in
  written w = (map Raw values ++ [Encoded DONE])%list /\ closed w = 1%nat.
Proof.
  intros Htk w. subst w. unfold pump, try_catch.
  cbn [Upstream.chunks Upstream.ending].
  rewrite pump_loop_forwards; cbn [open_channel closed accepts written app].
  2: reflexivity.
  2:{ destruct capacity; simpl in *; [lia|exact I]. }
  destruct capacity as [n|]; simpl in Htk.
  - destruct (n - List.length values)%nat as [|[|m]] eqn:E; try lia.
    pump_tail E.
  - pump_tail I.
Qed.

(** A failure of the upstream body: the chunks received so far, one error
    event, the sentinel, one close. *)
Lemma pump_failed (values : list (list byte)) error capacity :
  takes capacity (S (S (List.length values))) ->
  let w := snd (pump (Upstream.mkBody values (Upstream.StreamError error))
                     (open_channel capacity)) in
  written w = (map Raw values ++ [Encoded (error_event error); Encoded DONE])%list
  /\ closed w = 1%nat.
Proof.
  intros Htk w. subst w. unfold pump, try_catch.
  cbn [Upstream.chunks Upstream.ending].
  rewrite pump_loop_forwards; cbn [open_channel closed accepts written app].
  2: reflexivity.
  2:{ destruct capacity; simpl in *; [lia|exact I]. }
  destruct capacity as [n|]; simpl in Htk.
  - destruct (n - List.length values)%nat as [|[|[|m]]] eqn:E; try lia.
    pump_tail E.
  - pump_tail I.
Qed.
End PumpFacts.

(** ** Symbolic execution of the handlers *)

(** A statement about the pair an invocation returns is proved on its two
    components: the run of the handler then stands once in the goal, as the
    scrutinee of a case analysis. *)
Lemma pair_elim {A B} (Q : A * B -> Prop) (p : A * B) :
  (let '(a, b) := p in Q (a, b)) -> Q p.
Proof. now destruct p. Qed.

Ltac focus_serve :=
  match goal with
  | |- context [serve ?e ?P ?req] =>
      pattern (serve e P req); apply pair_elim
  end.

(** The test the execution is stuck on: the innermost scrutinee in head
    position. *)
Ltac head t :=
  lazymatch t with
  | match ?x with _ => _ end => head x
  | (match ?x with _ => _ end) _ => head x
  | (match ?x with _ => _ end) _ _ => head x
  | _ => constr:(t)
  end.

(** A closed test is decided by computation. *)
Ltac ground x :=
  let v := eval cbv in x in
  lazymatch v with
  | true => change x with true
  | false => change x with false
  end.

Ltac step :=
  lazymatch goal with
  | |- ?G =>
      let x := head G in
      lazymatch x with
      | G => fail
      | _ => first [ground x | destruct x eqn:?]
      end
  end.

(** Unfolds the handlers and the monad, and nothing of the data. *)
Ltac run :=
  cbv beta iota zeta delta
    [bind when ret return_ throw lift try_catch modify setHeader status json
     write end_ now fetch pipe set_responseSent get_responseSent on_res St0
     Res.fresh fst snd res calls ticks responseSent
     Res.headers Res.statusCode Res.written Res.ended negb orb andb
     serve reply_of_res reply_of_response Http.node Http.edge
     Http.status Http.headers Http.sent Http.closed
     Http.method Http.body Http.query Http.json
     Node.invoke Node.method Node.body Node.query
     StreamingEdge.invoke StreamingEdge.method StreamingEdge.json
     StreamingEdge.new_Response StreamingEdge.null_body_status
     StreamingEdge.status StreamingEdge.headers StreamingEdge.body
     Proxy.invoke ResearchAgent.invoke WebSearchAgent.invoke
     FireworksProxy.invoke
     Proxy.handler ResearchAgent.handler WebSearchAgent.handler
     FireworksProxy.handler StreamingEdge.handler
     Fetch.signal Fetch.headers Fetch.body Fetch.url Fetch.method app].

(** Every path of a handler, in execution order, one goal per path. *)
Ltac explore := repeat (run; step); run.

(** ** C9: cross-origin access on every response path *)

(** C9.  On every response path of every endpoint (preflight, method not
    allowed, configuration error, parse error, validation error, upstream
    error, timeout, transport failure, success, buffered or streamed) the
    reply carries [Access-Control-Allow-Origin: *].  The statement ranges over
    every platform behaviour and every request, so over every path; for the
    edge function it includes that a [Response] is always returned. *)
Theorem cors_on_every_response_path (e : Endpoint) (P : Platform) (req : Http.Request) :
  cors (Http.headers (fst (serve e P req))).
Proof.
  destruct e; destruct req as [m b q j]; focus_serve; explore; reflexivity.
Qed.

(** ** C6: a missing secret *)

(** C6, as the code has it.  For every POST request to an endpoint one of
    whose required secrets is unset (absent or empty), the reply has status
    500, no outbound call is made and the reply is closed once; on every
    endpoint but the chat proxy of [proxy.js] the reply names each required
    configuration key. *)
Theorem missing_secret_is_reported
  (e : Endpoint) (P : Platform) (req : Http.Request) (key : string) :
  Http.method req = "POST" ->
  In key (secrets e) ->
  env_set (process_env P key) = false ->
  Http.status (fst (serve e P req)) = 500 /\
  snd (serve e P req) = [] /\
  Http.closed (fst (serve e P req)) = 1%nat /\
  (e <> EProxy ->
   forall k, In k (secrets e) -> mentions (fst (serve e P req)) k = true).
Proof.
  intros Hm Hin Hset. destruct req as [m b q j]. simpl in Hm. subst m.
  destruct e; simpl in Hin; decompose [or] Hin; try contradiction; subst key.
  all: focus_serve; run; rewrite ?Hset; explore.
  all: repeat split; try reflexivity; try congruence.
  all: intros _ k Hk; simpl in Hk; decompose [or] Hk; try contradiction; subst k;
    reflexivity.
Qed.

Lemma missing_secret_is_reported_witness :
  Http.method (post query_body) = "POST" /\
  In "ABACUS_WEBSEARCH_ID" (secrets EWebSearchAgent) /\
  env_set (process_env (example_platform no_env 10 (Normal answer_ok))
                       "ABACUS_WEBSEARCH_ID") = false /\
  Http.status (fst (serve EWebSearchAgent
                      (example_platform no_env 10 (Normal answer_ok))
                      (post query_body))) = 500.
Proof.
  split; [reflexivity|].
  split; [right; left; reflexivity|].
  split; [reflexivity|].
  apply (missing_secret_is_reported EWebSearchAgent
           (example_platform no_env 10 (Normal answer_ok))
           (post query_body) "ABACUS_WEBSEARCH_ID").
  - reflexivity.
  - right; left; reflexivity.
  - reflexivity.
Defined.

(** C6 as stated fails twice.  With no key in the environment the chat proxy
    of [proxy.js] answers 500 with [{error: 'API key not configured on
    server'}], which names no configuration key; and a request that is not a
    POST is answered 405 by the method gate, whatever the environment. *)
Lemma missing_secret_counterexample :
  let P := example_platform no_env 10 (Normal answer_ok) in
  env_set (process_env P "FIREWORKS_API_KEY") = false /\
  reply_json (fst (serve EProxy P (post (chat_body (num 100))))) =
    Some (VObj [("error", VStr "API key not configured on server")]) /\
  mentions (fst (serve EProxy P (post (chat_body (num 100)))))
           "FIREWORKS_API_KEY" = false /\
  Http.status (fst (serve EStreamingEdge P
                      (Http.mkRequest "GET" VUndefined VUndefined (Normal VNull)))) = 405.
Proof. vm_compute. repeat split. Qed.

(** ** C7: the upstream call outlasts the timeout *)

(** An aborted call makes [fetch] reject with an [AbortError]. *)
Lemma fetch_aborted (P : Platform) (c : Fetch.Request) (s : St) :
  aborted P c -> fst (fetch P (R:=unit) c s) = Exn AbortError.
Proof.
  intros (T & Hs & Hlt). unfold fetch. rewrite Hs.
  apply Z.ltb_lt in Hlt. now rewrite Hlt.
Qed.

(** The leaves of a path analysis under a hypothesis [In c calls]. *)
Ltac the_call :=
  let H := fresh "Hcall" in
  intros H; cbn [In] in H; decompose [or] H; try contradiction; subst.

(** C7.  For every request whose upstream call outlasts the timeout the
    endpoint configures (120 s for the two chat proxies, 3 min for the
    research agent, 30 s for the web search agent; the edge function
    configures none), the call is aborted and the reply has status 504 with
    error [Gateway Timeout] and a message that mentions the duration. *)
Theorem upstream_timeout_is_gateway_timeout
  (e : Endpoint) (P : Platform) (req : Http.Request) (c : Fetch.Request) (T : Z) :
  In c (snd (serve e P req)) ->
  timeout e = Some T ->
  T < fetch_latency P ->
  aborted P c /\
  Http.status (fst (serve e P req)) = 504 /\
  reply_field (fst (serve e P req)) "error" = Some (VStr "Gateway Timeout") /\
  mentions (fst (serve e P req)) (duration e) = true.
Proof.
  intros Hin HT Hlt. destruct req as [m b q j].
  destruct e; cbv [timeout] in HT; try discriminate; injection HT as <-.
  all: pose proof Hlt as Hb; apply Z.ltb_lt in Hb.
  all: revert Hin; focus_serve; run; rewrite ?Hb; explore; the_call.
  all: split; [eexists; split; [reflexivity|exact Hlt]|].
  all: repeat split; reflexivity.
Qed.

Lemma upstream_timeout_is_gateway_timeout_witness :
  let P := example_platform full_env 31000 (Normal answer_ok) in
  let req := post query_body in
  exists c,
    In c (snd (serve EWebSearchAgent P req)) /\
    timeout EWebSearchAgent = Some 30000 /\
    30000 < fetch_latency P /\
    Http.status (fst (serve EWebSearchAgent P req)) = 504.
Proof.
  intros P req.
  eexists. split; [left; reflexivity|].
  split; [reflexivity|]. split; [reflexivity|].
  eapply (upstream_timeout_is_gateway_timeout EWebSearchAgent P req).
  - left; reflexivity.
  - reflexivity.
  - reflexivity.
Defined.

(** ** C4: where the credential travels *)

Lemma env_set_Some s : env_set (Some s) = true -> s <> "".
Proof. unfold env_set. intros H ->. discriminate. Qed.

(** C4, as the code has it.  Every outbound call of the three chat endpoints
    and of the web search agent carries the credential of its upstream as
    [Authorization: Bearer <credential>]; every outbound call of the research
    agent carries no [Authorization] header and has its deployment token in
    the field [deployment_token] of the JSON body. *)
Theorem credential_placement
  (e : Endpoint) (P : Platform) (req : Http.Request) (c : Fetch.Request) :
  In c (snd (serve e P req)) ->
  exists secret,
    process_env P (credential e) = Some secret /\ secret <> "" /\
    match e with
    | EResearchAgent =>
        header "Authorization" (Fetch.headers c) = None /\
        outbound_field c "deployment_token" = Some (VStr secret)
    | _ =>
        header "Authorization" (Fetch.headers c) = Some ("Bearer " ++ secret)
    end.
Proof.
  destruct req as [m b q j].
  destruct e; cbv [credential];
    match goal with
    | |- context [process_env P ?k = Some _] =>
        destruct (process_env P k) as [secret|] eqn:Henv
    end.
  all: focus_serve; run; rewrite ?Henv; explore; the_call.
  all: eexists; split; [reflexivity|]; split;
    [apply env_set_Some; assumption|].
  all: try split; reflexivity.
Qed.

Lemma credential_placement_witness :
  let P := example_platform full_env 10 (Normal answer_ok) in
  let req := post (chat_body (num 100)) in
  exists c secret,
    In c (snd (serve EStreamingEdge P req)) /\
    process_env P "FIREWORKS_API_KEY" = Some secret /\
    header "Authorization" (Fetch.headers c) = Some ("Bearer " ++ secret).
Proof.
  intros P req.
  assert (Hin : In (the_call_of (snd (serve EStreamingEdge P req)))
                   (snd (serve EStreamingEdge P req)))
    by (left; reflexivity).
  destruct (credential_placement EStreamingEdge P req _ Hin)
    as (secret & Henv & _ & Hauth).
  eexists. exists secret. split; [exact Hin|]. split; [exact Henv|exact Hauth].
Defined.

(** C4 as stated fails on the research agent: with every secret configured,
    its one outbound call has no [Authorization] header, and the deployment
    token travels in the request body. *)
Lemma credential_counterexample :
  let P := example_platform full_env 10 (Normal answer_ok) in
  exists c,
    snd (serve EResearchAgent P (post query_body)) = [c] /\
    process_env P (credential EResearchAgent) = Some "secret-ABACUS_DEPLOYMENT_TOKEN" /\
    header "Authorization" (Fetch.headers c) = None /\
    outbound_field c "deployment_token" = Some (VStr "secret-ABACUS_DEPLOYMENT_TOKEN").
Proof. eexists. vm_compute. repeat split. Qed.

(** ** C5: a non-success answer of the upstream *)

(** The equations a path analysis leaves behind are merged: two facts about
    the same term, or two completions that must agree. *)
Ltac reconcile :=
  repeat match goal with
  | H : Normal ?a = Normal ?b |- _ =>
      first [ constr_eq a b; clear H | injection H as H; subst ]
  | H : Normal _ = Throw _ |- _ => discriminate H
  | H : Throw _ = Normal _ |- _ => discriminate H
  | H : Some ?a = Some ?b |- _ =>
      first [ constr_eq a b; clear H | injection H as H; subst ]
  | H1 : ?t = ?a, H2 : ?t = ?b |- _ =>
      first [ constr_eq a b; clear H2
            | rewrite H1 in H2;
              first [discriminate H2 | injection H2 as H2; subst] ]
  end.

(** C5, as the code has it.  The upstream call is not aborted and settles
    with a non-success status.  When the error body can be read, the reply
    has the upstream status and carries the body: on the four Node endpoints
    in [details], next to [error] with the upstream status text; on the edge
    function in [message], where an empty body is replaced by [API Error:]
    and the status code, provided a [Response] with a body may carry the
    status.  When the error body cannot be read, the chat proxy with the
    streaming mode still relays the status, with the status text in [error]
    and [Status code:] and the code in [details], and the edge function
    relays the status with [API Error:] and the status code as the message;
    nothing is stated about the other three endpoints in that case. *)
Theorem upstream_error_is_relayed
  (e : Endpoint) (P : Platform) (req : Http.Request) (c : Fetch.Request)
  (up : Upstream.Response) :
  In c (snd (serve e P req)) ->
  ~ aborted P c ->
  fetch_settles P c = Normal up ->
  Upstream.ok up = false ->
  (e = EStreamingEdge -> relayable (Upstream.status up) = true) ->
  let r := fst (serve e P req) in
  let code := string_of_Z (Upstream.status up) in
  match Upstream.text up with
  | Normal errorText =>
      Http.status r = Upstream.status up /\
      match e with
      | EStreamingEdge =>
          reply_field r "message" =
          Some (VStr (if (errorText =? "")%string then "API Error: " ++ code
                      else errorText))
      | _ =>
          reply_field r "error" =
          Some (VStr (error_prefix e ++ Upstream.statusText up)) /\
          reply_field r "details" = Some (VStr errorText)
      end
  | Throw _ =>
      match e with
      | EStreamingEdge =>
          Http.status r = Upstream.status up /\
          reply_field r "message" = Some (VStr ("API Error: " ++ code))
      | EFireworksProxy =>
          Http.status r = Upstream.status up /\
          reply_field r "error" =
          Some (VStr ("API Error: " ++ Upstream.statusText up)) /\
          reply_field r "details" = Some (VStr ("Status code: " ++ code))
      | _ => True
      end
  end.
Proof.
  intros Hin Hna Hsettle Hnok Hrel r code. subst r code.
  destruct req as [m b q j].
  destruct e.
  all: revert Hin; focus_serve; explore; the_call.
  all: try (exfalso; apply Hna; eexists; split;
            [reflexivity | apply Z.ltb_lt; assumption]).
  all: reconcile.
  all: try (specialize (Hrel eq_refl);
            cbv [relayable StreamingEdge.null_body_status] in Hrel).
  all: try (repeat match goal with
            | H : (_ <=? _) = _ |- _ => rewrite H in Hrel; clear H
            | H : (_ =? _) = _ |- _ => rewrite H in Hrel; clear H
            end; cbn [andb orb negb] in Hrel; discriminate Hrel).
  all: repeat match goal with
       | H : Upstream.text _ = _ |- _ => rewrite H
       end.
  all: try match goal with
       | |- context [Upstream.text ?u] => destruct (Upstream.text u)
       end.
  all: try exact I.
  all: repeat split; reflexivity.
Qed.

Lemma upstream_error_is_relayed_witness :
  let P := example_platform full_env 10 (Normal answer_429) in
  let req := post (chat_body (num 100)) in
  exists c,
    In c (snd (serve EProxy P req)) /\
    ~ aborted P c /\
    fetch_settles P c = Normal answer_429 /\
    Upstream.ok answer_429 = false /\
    Http.status (fst (serve EProxy P req)) = 429 /\
    reply_field (fst (serve EProxy P req)) "details" = Some (VStr "rate limited").
Proof.
  intros P req.
  assert (Hin : In (the_call_of (snd (serve EProxy P req)))
                   (snd (serve EProxy P req)))
    by (left; reflexivity).
  assert (Hna : ~ aborted P (the_call_of (snd (serve EProxy P req)))).
  { intros (T & Hs & Hlt). vm_compute in Hs. injection Hs as <-.
    vm_compute in Hlt. discriminate Hlt. }
  pose proof (upstream_error_is_relayed EProxy P req _ answer_429
                Hin Hna eq_refl eq_refl) as H.
  eexists. split; [exact Hin|]. split; [exact Hna|].
  split; [reflexivity|]. split; [reflexivity|].
  destruct (H ltac:(discriminate)) as (Hst & _ & Hd).
  split; [exact Hst|exact Hd].
Defined.

(** C5 as stated fails on the edge function when the error body cannot be
    read: the status 429 is relayed, but the message is [API Error: 429],
    built from the status code, and the status text appears nowhere in the
    reply. *)
Lemma upstream_error_counterexample :
  let P := example_platform full_env 10 (Normal answer_429_unreadable) in
  let r := fst (serve EStreamingEdge P (post (chat_body (num 100)))) in
  Upstream.statusText answer_429_unreadable = "Too Many Requests" /\
  Http.status r = 429 /\
  reply_json r = Some (VObj [("error", VBool true);
                             ("message", VStr "API Error: 429")]) /\
  mentions r "Too Many Requests" = false.
Proof. vm_compute. repeat split. Qed.

(** On the endpoints that read the error body unguarded, an unreadable body
    ends in the handler of transport failures. *)
Example unreadable_error_body_on_proxy :
  let P := example_platform full_env 10 (Normal answer_429_unreadable) in
  let r := fst (serve EProxy P (post (chat_body (num 100)))) in
  Http.status r = 500 /\
  reply_field r "error" = Some (VStr "Request Failed").
Proof. vm_compute. repeat split. Qed.

(** ** The outbound payload of the chat endpoints *)

Lemma lookup_app_fresh k pre post :
  ~ In k (map fst pre) -> lookup k (pre ++ post) = lookup k post.
Proof.
  induction pre as [|[k' v'] pre IH]; simpl; intros Hn; [reflexivity|].
  destruct (k' =? k)%string eqn:E.
  - apply String.eqb_eq in E. tauto.
  - apply IH. tauto.
Qed.

Lemma delete_field_fresh k fields :
  ~ In k (map fst fields) -> delete_field k fields = fields.
Proof.
  induction fields as [|[k' v'] rest IH]; simpl; intros Hn; [reflexivity|].
  destruct (k' =? k)%string eqn:E.
  - apply String.eqb_eq in E. tauto.
  - rewrite IH; tauto.
Qed.

Lemma delete_field_app_fresh k pre post :
  ~ In k (map fst pre) ->
  delete_field k (pre ++ post) = (pre ++ delete_field k post)%list.
Proof.
  induction pre as [|[k' v'] pre IH]; simpl; intros Hn; [reflexivity|].
  destruct (k' =? k)%string eqn:E.
  - apply String.eqb_eq in E. tauto.
  - rewrite IH; tauto.
Qed.

(** The loop over the keys, started in the middle: the fields before the
    current key have been dealt with. *)
Lemma remove_nullish_fold post : forall pre,
  NoDup (map fst (pre ++ post)) ->
  fold_left (fun o key => if is_nullish (lookup key o) then delete_field key o else o)
            (map fst post) (pre ++ post)%list
  = (pre ++ filter keeps post)%list.
Proof.
  induction post as [|[k v] post IH]; intros pre Hnd; [reflexivity|].
  assert (Hk : ~ In k (map fst pre) /\ ~ In k (map fst post)).
  { rewrite map_app in Hnd. simpl in Hnd.
    apply NoDup_remove_2 in Hnd. rewrite in_app_iff in Hnd. tauto. }
  destruct Hk as [Hpre Hpost].
  cbn [map fst fold_left filter].
  rewrite lookup_app_fresh by assumption.
  cbn [lookup]. rewrite String.eqb_refl.
  unfold keeps at 1. cbn [snd].
  destruct (is_nullish v); cbn [negb].
  - rewrite delete_field_app_fresh by assumption.
    cbn [delete_field]. rewrite String.eqb_refl.
    rewrite delete_field_fresh by assumption.
    apply IH.
    rewrite map_app in *. simpl in Hnd. now apply NoDup_remove_1 in Hnd.
  - change (pre ++ (k, v) :: post)%list with (pre ++ [(k, v)] ++ post)%list.
    rewrite app_assoc. rewrite IH.
    + now rewrite <- app_assoc.
    + now rewrite <- app_assoc.
Qed.

(** On an object (no key twice) the removal loop is a filter. *)
Lemma remove_nullish_filter o :
  NoDup (map fst o) -> StreamingEdge.remove_nullish o = filter keeps o.
Proof.
  intros Hnd. unfold StreamingEdge.remove_nullish.
  exact (remove_nullish_fold o [] Hnd).
Qed.

Lemma cleanedParams_filter model messages n temperature top_p :
  let o := [("model", model); ("messages", messages); ("max_tokens", VNum n);
            ("temperature", temperature); ("top_p", top_p); ("stream", VBool true)] in
  StreamingEdge.remove_nullish o = filter keeps o.
Proof.
  apply remove_nullish_filter. cbn [map fst].
  repeat constructor; cbn [In]; intuition discriminate.
Qed.

Lemma cleanedParams_lookup model messages n temperature top_p :
  let o := StreamingEdge.remove_nullish
             [("model", model); ("messages", messages); ("max_tokens", VNum n);
              ("temperature", temperature); ("top_p", top_p); ("stream", VBool true)] in
  lookup "model" o = (if is_nullish model then VUndefined else model) /\
  lookup "messages" o = (if is_nullish messages then VUndefined else messages) /\
  lookup "max_tokens" o = VNum n /\
  lookup "temperature" o = (if is_nullish temperature then VUndefined else temperature) /\
  lookup "top_p" o = (if is_nullish top_p then VUndefined else top_p) /\
  lookup "stream" o = VBool true.
Proof.
  intros o. subst o.
  rewrite (cleanedParams_filter model messages n temperature top_p).
  cbv [keeps]. cbn [filter snd].
  destruct (is_nullish model), (is_nullish messages),
           (is_nullish temperature), (is_nullish top_p);
    repeat split; reflexivity.
Qed.

Lemma cleanedParams_fields model messages n temperature top_p k v :
  In (k, v) (StreamingEdge.remove_nullish
             [("model", model); ("messages", messages); ("max_tokens", VNum n);
              ("temperature", temperature); ("top_p", top_p); ("stream", VBool true)]) ->
  is_nullish v = false /\
  In k ["model"; "messages"; "max_tokens"; "temperature"; "top_p"; "stream"].
Proof.
  rewrite (cleanedParams_filter model messages n temperature top_p).
  intros Hin. apply filter_In in Hin. destruct Hin as [Hin Hk].
  split.
  - unfold keeps in Hk. cbn [snd] in Hk. now destruct (is_nullish v).
  - apply (in_map fst) in Hin. exact Hin.
Qed.

(** The assignment of [stream] leaves every other field as it was. *)
Lemma assign_strict_get rb k x rb' k' :
  assign_strict rb k x = Normal rb' -> k' <> k -> get rb' k' = get rb k'.
Proof.
  destruct rb; simpl; intros H Hne; try discriminate; injection H as <-.
  - reflexivity.
  - simpl. now rewrite lookup_set_field_other.
Qed.

Lemma truthy_Fin q : ~ (q == 0)%Q -> truthy (VNum (Fin q)) = true.
Proof.
  intros Hq. simpl. destruct (Qnum q =? 0) eqn:E; [|reflexivity].
  apply Z.eqb_eq in E. exfalso. apply Hq.
  unfold Qeq. simpl. lia.
Qed.

(** Reading a field of the call at the end of a path. *)
Ltac outbound :=
  cbv [outbound_field outbound_fields Fetch.body];
  repeat first
    [ rewrite lookup_set_field_same
    | rewrite lookup_set_field_other by discriminate ].

Ltac through_assign :=
  repeat match goal with
  | H : assign_strict ?rb ?k ?x = Normal ?rb', G : get ?rb' ?k' = _ |- _ =>
      rewrite (assign_strict_get rb k x rb' k' H) in G by discriminate
  end.

Ltac inbound_body H :=
  cbv [inbound Http.node Http.method Http.body Http.query Http.json] in H.

(** Whatever the validation of [max_tokens] yields is what the outbound
    payload carries. *)
Lemma outbound_max_tokens
  (e : Endpoint) (P : Platform) (req : Http.Request) (c : Fetch.Request)
  (rb mt : Value) (n : number) :
  chat e = true ->
  In c (snd (serve e P req)) ->
  inbound e P req = Normal rb ->
  get rb "max_tokens" = Normal mt ->
  validatedMaxTokens P (originalMaxTokens mt) = Normal n ->
  outbound_field c "max_tokens" = Some (VNum n).
Proof.
  intros Hchat Hin Hrb Hmt Hn. destruct req as [m b q j].
  destruct e; try discriminate Hchat; clear Hchat; inbound_body Hrb.
  all: revert Hin; focus_serve; run; rewrite ?Hrb; explore; the_call.
  all: through_assign; reconcile.
  all: outbound; try reflexivity.
  all: f_equal; apply cleanedParams_lookup.
Qed.

(** ** C10: a falsy [max_tokens] *)

(** C10.  For every request to a chat endpoint whose inbound [max_tokens] is
    falsy (0, null, absent, and likewise false or the empty string), the
    outbound payload has [max_tokens: 4096]; in particular 0 is not clamped
    to 1. *)
Theorem falsy_max_tokens_defaults
  (e : Endpoint) (P : Platform) (req : Http.Request) (c : Fetch.Request)
  (rb mt : Value) :
  chat e = true ->
  In c (snd (serve e P req)) ->
  inbound e P req = Normal rb ->
  get rb "max_tokens" = Normal mt ->
  truthy mt = false ->
  outbound_field c "max_tokens" = Some (num 4096).
Proof.
  intros Hchat Hin Hrb Hmt Hfalsy.
  apply (outbound_max_tokens e P req c rb mt); try assumption.
  now apply validated_default.
Qed.

Lemma falsy_max_tokens_defaults_witness :
  let P := example_platform full_env 10 (Normal answer_ok) in
  let req := post (chat_body (num 0)) in
  let c := the_call_of (snd (serve EFireworksProxy P req)) in
  In c (snd (serve EFireworksProxy P req)) /\
  inbound EFireworksProxy P req = Normal (chat_body (num 0)) /\
  get (chat_body (num 0)) "max_tokens" = Normal (num 0) /\
  truthy (num 0) = false /\
  outbound_field c "max_tokens" = Some (num 4096).
Proof.
  intros P req c.
  assert (Hin : In c (snd (serve EFireworksProxy P req))) by (left; reflexivity).
  split; [exact Hin|]. split; [reflexivity|]. split; [reflexivity|].
  split; [reflexivity|].
  apply (falsy_max_tokens_defaults EFireworksProxy P req c
           (chat_body (num 0)) (num 0)); try reflexivity.
  exact Hin.
Defined.

(** ** C2: the clamp of [max_tokens] *)

(** C2, as the code has it.  For every request to a chat endpoint whose
    inbound [max_tokens] is a number other than 0, the outbound [max_tokens]
    is that number clamped into [1, 8192]: below 1 it becomes 1, above 8192
    it becomes 8192 (so do the infinities), inside the range it is unchanged;
    an absent [max_tokens] becomes 4096. *)
Theorem max_tokens_is_clamped
  (e : Endpoint) (P : Platform) (req : Http.Request) (c : Fetch.Request)
  (rb mt : Value) :
  chat e = true ->
  In c (snd (serve e P req)) ->
  inbound e P req = Normal rb ->
  get rb "max_tokens" = Normal mt ->
  match mt with
  | VNum (Fin q) =>
      ~ (q == 0)%Q ->
      exists m,
        outbound_field c "max_tokens" = Some (VNum (Fin m)) /\
        m = clamp 1 8192 q /\
        (1 <= m)%Q /\ (m <= 8192)%Q /\
        (q < 1 -> m = 1)%Q /\
        (8192 < q -> m = 8192)%Q /\
        (1 <= q -> q <= 8192 -> m = q)%Q
  | VNum Infinity => outbound_field c "max_tokens" = Some (num 8192)
  | VNum NegInfinity => outbound_field c "max_tokens" = Some (num 1)
  | VUndefined => outbound_field c "max_tokens" = Some (num 4096)
  | _ => True
  end.
Proof.
  intros Hchat Hin Hrb Hmt.
  pose proof (outbound_max_tokens e P req c rb mt) as Hv.
  destruct mt as [| | |[| | |q]| | |]; try exact I.
  - now apply Hv.
  - now apply Hv.
  - now apply Hv.
  - intros Hq. exists (clamp 1 8192 q). split; [|split; [reflexivity|]].
    + apply Hv; try assumption.
      rewrite truthy_true_original by (apply truthy_Fin; exact Hq).
      apply validated_number.
    + apply clamp_spec.
Qed.

Lemma max_tokens_is_clamped_witness :
  let P := example_platform full_env 10 (Normal answer_ok) in
  let req := post (chat_body (num 999999)) in
  let c := the_call_of (snd (serve EProxy P req)) in
  In c (snd (serve EProxy P req)) /\
  inbound EProxy P req = Normal (chat_body (num 999999)) /\
  get (chat_body (num 999999)) "max_tokens" = Normal (num 999999) /\
  outbound_field c "max_tokens" = Some (num 8192).
Proof.
  intros P req c.
  assert (Hin : In c (snd (serve EProxy P req))) by (left; reflexivity).
  split; [exact Hin|]. split; [reflexivity|]. split; [reflexivity|].
  destruct (max_tokens_is_clamped EProxy P req c
              (chat_body (num 999999)) (num 999999)
              eq_refl Hin eq_refl eq_refl)
    as (m & Hout & _ & _ & _ & _ & Hhi & _).
  - intros H. discriminate H.
  - rewrite Hout. rewrite (Hhi eq_refl). reflexivity.
Defined.

(** C2 as stated fails at 0: the clamp of 0 into [1, 8192] is 1, but an
    inbound [max_tokens: 0] is replaced by the default before the clamp and
    goes out as 4096. *)
Lemma max_tokens_counterexample :
  let P := example_platform full_env 10 (Normal answer_ok) in
  let c := the_call_of (snd (serve EProxy P (post (chat_body (num 0))))) in
  snd (serve EProxy P (post (chat_body (num 0)))) = [c] /\
  get (chat_body (num 0)) "max_tokens" = Normal (num 0) /\
  clamp 1 8192 (inject_Z 0) = 1%Q /\
  outbound_field c "max_tokens" = Some (num 4096) /\
  outbound_field c "max_tokens" <> Some (VNum (Fin (clamp 1 8192 (inject_Z 0)))).
Proof. vm_compute. repeat split. discriminate. Qed.

(** ** C8: the streaming endpoint forces [stream] *)

(** C8.  Every outbound payload of the streaming endpoint has [stream: true],
    whatever the inbound request says. *)
Theorem streaming_endpoint_forces_stream
  (P : Platform) (req : Http.Request) (c : Fetch.Request) :
  In c (snd (serve EStreamingEdge P req)) ->
  outbound_field c "stream" = Some (VBool true).
Proof.
  intros Hin. destruct req as [m b q j].
  revert Hin; focus_serve; explore; the_call.
  all: outbound; f_equal; apply cleanedParams_lookup.
Qed.

Lemma streaming_endpoint_forces_stream_witness :
  let P := example_platform full_env 10 (Normal answer_ok) in
  let req := post (chat_body_stream (VBool false)) in
  let c := the_call_of (snd (serve EStreamingEdge P req)) in
  In c (snd (serve EStreamingEdge P req)) /\
  get (chat_body_stream (VBool false)) "stream" = Normal (VBool false) /\
  outbound_field c "stream" = Some (VBool true).
Proof.
  intros P req c.
  assert (Hin : In c (snd (serve EStreamingEdge P req))) by (left; reflexivity).
  split; [exact Hin|]. split; [reflexivity|].
  exact (streaming_endpoint_forces_stream P req c Hin).
Defined.

(** ** C3: what the outbound request copies *)

(** C3, as the code has it.  The streaming endpoint sends only [model],
    [messages], [max_tokens], [temperature], [top_p] and [stream], none of
    them undefined or null, each of the four copied fields being the inbound
    value unless that is undefined or null.  The two chat proxies send every
    inbound field as it is, null values included, with [max_tokens] replaced
    (and, in [proxy.js], [user] set). *)
Theorem outbound_request_shape
  (e : Endpoint) (P : Platform) (req : Http.Request) (c : Fetch.Request)
  (rb : Value) :
  chat e = true ->
  In c (snd (serve e P req)) ->
  inbound e P req = Normal rb ->
  match e with
  | EStreamingEdge =>
      (forall k v, In (k, v) (outbound_fields c) ->
         is_nullish v = false /\
         In k ["model"; "messages"; "max_tokens"; "temperature"; "top_p"; "stream"]) /\
      (forall k v, In k ["model"; "messages"; "temperature"; "top_p"] ->
         get rb k = Normal v ->
         outbound_field c k = Some (if is_nullish v then VUndefined else v))
  | EProxy =>
      forall k, k <> "max_tokens" -> k <> "user" ->
        outbound_field c k = Some (lookup k (own_properties rb))
  | _ =>
      forall k, k <> "max_tokens" ->
        outbound_field c k = Some (lookup k (own_properties rb))
  end.
Proof.
  intros Hchat Hin Hrb. destruct req as [m b q j].
  destruct e; try discriminate Hchat; clear Hchat; inbound_body Hrb.
  all: revert Hin; focus_serve; run; rewrite ?Hrb; explore; the_call.
  all: through_assign; reconcile.
  all: try (intros k Hk1 Hk2; cbv [outbound_field Fetch.body];
            now rewrite !lookup_set_field_other by assumption).
  all: try (intros k Hk1; cbv [outbound_field Fetch.body];
            now rewrite !lookup_set_field_other by assumption).
  all: split;
    [ intros k v; cbv [outbound_fields Fetch.body]; apply cleanedParams_fields
    | intros k v Hk Hget; cbn [In] in Hk; decompose [or] Hk; try contradiction;
      subst k; reconcile; cbv [outbound_field Fetch.body]; f_equal;
      apply cleanedParams_lookup ].
Qed.

Lemma outbound_request_shape_witness :
  let P := example_platform full_env 10 (Normal answer_ok) in
  let req := post chat_body_null_temperature in
  let c := the_call_of (snd (serve EStreamingEdge P req)) in
  In c (snd (serve EStreamingEdge P req)) /\
  inbound EStreamingEdge P req = Normal chat_body_null_temperature /\
  get chat_body_null_temperature "temperature" = Normal VNull /\
  outbound_field c "temperature" = Some VUndefined.
Proof.
  intros P req c.
  assert (Hin : In c (snd (serve EStreamingEdge P req))) by (left; reflexivity).
  split; [exact Hin|]. split; [reflexivity|]. split; [reflexivity|].
  destruct (outbound_request_shape EStreamingEdge P req c
              chat_body_null_temperature eq_refl Hin eq_refl) as [_ H].
  apply (H "temperature" VNull).
  - right; right; left; reflexivity.
  - reflexivity.
Defined.

(** C3 as stated fails on the chat proxy of [proxy.js]: an inbound
    [temperature: null] goes out as [temperature: null]. *)
Lemma null_field_counterexample :
  let P := example_platform full_env 10 (Normal answer_ok) in
  let c := the_call_of (snd (serve EProxy P (post chat_body_null_temperature))) in
  snd (serve EProxy P (post chat_body_null_temperature)) = [c] /\
  get chat_body_null_temperature "temperature" = Normal VNull /\
  outbound_field c "temperature" = Some VNull /\
  In ("temperature", VNull) (outbound_fields c).
Proof. vm_compute. repeat split. right; right; left; reflexivity. Qed.

(** ** C1: the streamed relay *)

(** C1, as the code has it.  The upstream call is not aborted and settles
    with a success status and a body.  The edge function, as long as the
    client takes every write, forwards every chunk unmodified and in order,
    then on completion writes [data: [DONE]] and closes once, and on a
    failure of the upstream body writes one error event, then [data: [DONE]],
    and closes once.  The chat proxy in streaming mode ([stream: true])
    pipes every chunk unmodified and in order and writes nothing of its own:
    on completion it closes once, on a failure it leaves the reply open. *)
Theorem streamed_relay
  (e : Endpoint) (P : Platform) (req : Http.Request) (c : Fetch.Request)
  (up : Upstream.Response) (source : Upstream.BodyStream) :
  In c (snd (serve e P req)) ->
  ~ aborted P c ->
  fetch_settles P c = Normal up ->
  Upstream.ok up = true ->
  Upstream.body up = Some source ->
  let r := fst (serve e P req) in
  let forwarded := map Raw (Upstream.chunks source) in
  match e with
  | EStreamingEdge =>
      takes (client_accepts P) (S (S (List.length (Upstream.chunks source)))) ->
      match Upstream.ending source with
      | Upstream.EndOfStream =>
          Http.sent r = (forwarded ++ [Encoded DONE])%list /\ Http.closed r = 1%nat
      | Upstream.StreamError error =>
          Http.sent r =
            (forwarded ++ [Encoded (StreamingEdge.error_event error); Encoded DONE])%list /\
          Http.closed r = 1%nat
      end
  | EFireworksProxy =>
      forall rb, inbound e P req = Normal rb ->
        get rb "stream" = Normal (VBool true) ->
        Http.sent r = forwarded /\
        Http.closed r = match Upstream.ending source with
                        | Upstream.EndOfStream => 1%nat
                        | Upstream.StreamError _ => 0%nat
                        end
  | _ => True
  end.
Proof.
  intros Hin Hna Hsettle Hok Hbody r forwarded. subst r forwarded.
  destruct req as [m b q j].
  destruct e; try exact I.
  - revert Hin; focus_serve; explore; the_call.
    all: reconcile.
    all: try congruence.
    all: intros Htk;
      match goal with
      | |- context [Upstream.ending ?s] => destruct s as [values [|error]]
      end;
      cbn [Upstream.chunks Upstream.ending] in *.
    all: first [ apply PumpFacts.pump_done;
                 destruct (client_accepts P); simpl in *; [lia|exact I]
               | apply PumpFacts.pump_failed; exact Htk ].
  - intros rb Hrb Hstream. inbound_body Hrb.
    revert Hin; focus_serve; run; rewrite ?Hrb; explore; the_call.
    all: try (exfalso; apply Hna; eexists; split;
              [reflexivity | apply Z.ltb_lt; assumption]).
    all: reconcile.
    all: try congruence.
    all: try discriminate.
    all: match goal with
         | |- context [Upstream.ending ?s] => destruct (Upstream.ending s)
         end; split; reflexivity.
Qed.

Lemma streamed_relay_witness :
  let P := example_platform full_env 10 (Normal answer_ok) in
  let req := post (chat_body (num 100)) in
  let c := the_call_of (snd (serve EStreamingEdge P req)) in
  let r := fst (serve EStreamingEdge P req) in
  In c (snd (serve EStreamingEdge P req)) /\
  ~ aborted P c /\
  fetch_settles P c = Normal answer_ok /\
  Upstream.ok answer_ok = true /\
  Http.sent r = [Raw bytes_a; Raw bytes_b; Encoded DONE] /\
  Http.closed r = 1%nat.
Proof.
  intros P req c r.
  assert (Hin : In c (snd (serve EStreamingEdge P req))) by (left; reflexivity).
  assert (Hna : ~ aborted P c).
  { intros (T & Hs & _). vm_compute in Hs. discriminate Hs. }
  split; [exact Hin|]. split; [exact Hna|].
  split; [reflexivity|]. split; [reflexivity|].
  exact (streamed_relay EStreamingEdge P req c answer_ok
           (Upstream.mkBody [bytes_a; bytes_b] Upstream.EndOfStream)
           Hin Hna eq_refl eq_refl eq_refl I).
Defined.

(** C1 as stated fails on the chat proxy in streaming mode.  After two chunks
    and the end of the upstream body the client has received the two chunks
    and the close, and no [data: [DONE]]; after one chunk and a failure it
    has received the chunk, no error event, no [data: [DONE]], and the reply
    is not closed. *)
Lemma streamed_relay_counterexample :
  let req := post (chat_body_stream (VBool true)) in
  let completed :=
    fst (serve EFireworksProxy (example_platform full_env 10 (Normal answer_ok)) req) in
  let failed :=
    fst (serve EFireworksProxy (example_platform full_env 10 (Normal answer_broken)) req) in
  Http.sent completed = [Raw bytes_a; Raw bytes_b] /\
  Http.closed completed = 1%nat /\
  ~ In (Encoded DONE) (Http.sent completed) /\
  Http.sent failed = [Raw bytes_a] /\
  Http.closed failed = 0%nat.
Proof.
  vm_compute. repeat split.
  intros [H|[H|[]]]; discriminate H.
Qed.

(** * Further properties of the handlers *)
(** ** The pump and a client that goes away *)
(** A client that goes away after [n] writes, [n] at most the number of
    chunks: the loop stops with an exception after exactly [n] chunks. *)
Lemma pump_loop_runs_out (values : list (list byte)) : forall ending wr n,
  (n <= List.length values)%nat ->
  exists err,
    StreamingEdge.pump_loop values ending (StreamingEdge.mkWriter wr 0 (Some n)) =
    (Exn err, StreamingEdge.mkWriter (wr ++ firstn n (map Raw values)) 0 (Some 0%nat)).
Proof.
  induction values as [|value rest IH]; intros ending wr n Hn.
  - assert (n = 0%nat) by (simpl in Hn; lia). subst n.
    cbn [map firstn]. rewrite app_nil_r.
    destruct ending as [|error]; eexists; reflexivity.
  - destruct n as [|n].
    + cbn [firstn]. rewrite app_nil_r. eexists. reflexivity.
    + cbn [StreamingEdge.pump_loop]. unfold bind at 1. unfold StreamingEdge.writer_write at 1.
      cbv [StreamingEdge.broken StreamingEdge.accepts StreamingEdge.closed StreamingEdge.written Nat.eqb negb option_map pred].
      destruct (IH ending (wr ++ [Raw value])%list n) as [err Herr].
      { simpl in Hn. lia. }
      exists err. rewrite Herr. cbn [map firstn].
      now rewrite <- app_assoc.
Qed.

Lemma pump_prefix (source : Upstream.BodyStream) (capacity : option nat) :
  let w := snd (StreamingEdge.pump source (StreamingEdge.open_channel capacity)) in
  StreamingEdge.written w = match capacity with
              | None => script source
              | Some n => firstn n (script source)
              end /\
  StreamingEdge.closed w = match capacity with
             | None => 1%nat
             | Some n => if (List.length (script source) <? n)%nat then 1%nat else 0%nat
             end.
Proof.
  destruct source as [values ending]. intros w. subst w.
  assert (Hlen : List.length (script (Upstream.mkBody values ending)) =
                 (List.length values +
                  match ending with Upstream.EndOfStream => 1 | _ => 2 end)%nat).
  { unfold script. cbn [Upstream.chunks Upstream.ending].
    rewrite length_app, length_map. destruct ending; reflexivity. }
  destruct capacity as [n|].
  - rewrite Hlen.
    destruct (Nat.le_gt_cases n (List.length values)) as [Hle|Hgt].
    + (* the client leaves during the chunks *)
      destruct (pump_loop_runs_out values ending [] n Hle) as [err Herr].
      unfold StreamingEdge.pump, try_catch, StreamingEdge.open_channel.
      cbn [Upstream.chunks Upstream.ending]. rewrite Herr.
      cbv [bind StreamingEdge.writer_write StreamingEdge.broken StreamingEdge.accepts StreamingEdge.closed StreamingEdge.written snd].
      unfold script. cbn [Upstream.chunks Upstream.ending app].
      rewrite firstn_app, length_map.
      replace (n - List.length values)%nat with 0%nat by lia.
      cbn [firstn]. rewrite app_nil_r.
      split; [reflexivity|].
      destruct (_ <? n)%nat eqn:E; [|reflexivity].
      apply Nat.ltb_lt in E. destruct ending; lia.
    + (* every chunk is delivered *)
      unfold StreamingEdge.pump, try_catch.
      cbn [Upstream.chunks Upstream.ending].
      rewrite PumpFacts.pump_loop_forwards;
        cbn [StreamingEdge.open_channel StreamingEdge.closed StreamingEdge.accepts StreamingEdge.written app option_map];
        [|reflexivity|simpl; lia].
      unfold script. cbn [Upstream.chunks Upstream.ending].
      rewrite firstn_app, length_map.
      rewrite firstn_all2 by (rewrite length_map; lia).
      destruct (n - List.length values)%nat as [|[|[|k]]] eqn:E; try lia;
        destruct ending as [|error];
        cbv [StreamingEdge.pump_loop bind StreamingEdge.writer_write StreamingEdge.writer_close return_ throw StreamingEdge.broken
             StreamingEdge.accepts StreamingEdge.closed StreamingEdge.written option_map pred Nat.eqb negb snd];
        cbn [firstn];
        (split; [now rewrite <- ?app_assoc|]);
        match goal with
        | |- _ = (if ?b then _ else _) =>
            let Hb := fresh in
            destruct b eqn:Hb; try reflexivity;
            first [apply Nat.ltb_lt in Hb | apply Nat.ltb_ge in Hb]; lia
        end.
  - split.
    + destruct ending as [|error].
      * apply (PumpFacts.pump_done values None). exact I.
      * apply (PumpFacts.pump_failed values error None). exact I.
    + destruct ending as [|error].
      * apply (PumpFacts.pump_done values None). exact I.
      * apply (PumpFacts.pump_failed values error None). exact I.
Qed.

(** X15.  Whatever the capacity of the client, what the pump delivers is a
    prefix of its script (the upstream chunks in order, then the sentinel,
    preceded by one error event when the upstream body failed): exactly as
    many items as the client takes, never a chunk out of order or twice.  The
    channel is closed once when the client took the whole script and could
    take more, and not at all otherwise. *)
Theorem pump_delivers_a_prefix (source : Upstream.BodyStream) (capacity : option nat) :
  let w := snd (StreamingEdge.pump source (StreamingEdge.open_channel capacity)) in
  StreamingEdge.written w = match capacity with
                            | None => script source
                            | Some n => firstn n (script source)
                            end /\
  StreamingEdge.closed w =
    match capacity with
    | None => 1%nat
    | Some n => if (List.length (script source) <? n)%nat then 1%nat else 0%nat
    end.
Proof. exact (pump_prefix source capacity). Qed.

(** ** The gates, the failures and the replies *)

Ltac use_secrets H :=
  cbv [secrets_set secrets] in H;
  repeat match goal with
  | |- context [env_set (process_env ?P ?k)] =>
      rewrite (H k) by (cbn [In]; tauto)
  end.

(** X1.  On every endpoint a request whose method is neither OPTIONS nor POST
    is answered 405 with the header [Allow: POST] and the body
    [{error: 'Method Not Allowed'}]; the reply is closed once and no outbound
    call is made, whatever the environment and the body. *)
Theorem other_methods_are_rejected (e : Endpoint) (P : Platform) (req : Http.Request) :
  Http.method req <> "OPTIONS" ->
  Http.method req <> "POST" ->
  let r := fst (serve e P req) in
  Http.status r = 405 /\
  header "Allow" (Http.headers r) = Some "POST" /\
  reply_json r = Some (VObj [("error", VStr "Method Not Allowed")]) /\
  Http.closed r = 1%nat /\
  snd (serve e P req) = [].
Proof.
  intros Ho Hp r. subst r. destruct req as [m b q j]. simpl in Ho, Hp.
  apply String.eqb_neq in Ho, Hp.
  destruct e; focus_serve; run; rewrite ?Ho, ?Hp; explore; repeat split.
Qed.

Lemma other_methods_are_rejected_witness :
  "GET" <> "OPTIONS" /\ "GET" <> "POST" /\
  Http.status (fst (serve EResearchAgent
                      (example_platform no_env 10 (Normal answer_ok))
                      (bare "GET"))) = 405.
Proof.
  split; [discriminate|]. split; [discriminate|].
  apply (other_methods_are_rejected EResearchAgent
           (example_platform no_env 10 (Normal answer_ok)) (bare "GET"));
    discriminate.
Defined.

(** X2.  On every endpoint an OPTIONS request is answered 204 with no body,
    closed once, without any outbound call and before the secrets are looked
    at; the reply allows the headers [Content-Type, Authorization] and the
    methods [GET, POST, OPTIONS] ([POST, OPTIONS] on the chat proxy of
    [proxy.js]). *)
Theorem preflight_is_answered_at_once (e : Endpoint) (P : Platform) (req : Http.Request) :
  Http.method req = "OPTIONS" ->
  let r := fst (serve e P req) in
  Http.status r = 204 /\
  Http.sent r = [] /\
  Http.closed r = 1%nat /\
  snd (serve e P req) = [] /\
  header "Access-Control-Allow-Headers" (Http.headers r) =
    Some "Content-Type, Authorization" /\
  header "Access-Control-Allow-Methods" (Http.headers r) =
    Some (match e with EProxy => "POST, OPTIONS" | _ => "GET, POST, OPTIONS" end).
Proof.
  intros Ho r. subst r. destruct req as [m b q j]. simpl in Ho. subst m.
  destruct e; focus_serve; explore; repeat split.
Qed.

Lemma preflight_is_answered_at_once_witness :
  Http.method (bare "OPTIONS") = "OPTIONS" /\
  Http.status (fst (serve EProxy
                      (example_platform no_env 10 (Normal answer_ok))
                      (bare "OPTIONS"))) = 204.
Proof.
  split; [reflexivity|].
  apply (preflight_is_answered_at_once EProxy
           (example_platform no_env 10 (Normal answer_ok)) (bare "OPTIONS")).
  reflexivity.
Defined.

(** X3.  No retry and no double reply: whatever the request and the
    surroundings, an endpoint makes at most one outbound call and closes the
    reply at most once; the three buffered Node endpoints ([proxy.js] and the
    two agents) close it exactly once on every path. *)
Theorem at_most_one_call_and_one_close (e : Endpoint) (P : Platform) (req : Http.Request) :
  (List.length (snd (serve e P req)) <= 1)%nat /\
  (Http.closed (fst (serve e P req)) <= 1)%nat /\
  (match e with
   | EProxy | EResearchAgent | EWebSearchAgent =>
       Http.closed (fst (serve e P req)) = 1%nat
   | _ => True
   end).
Proof.
  destruct req as [m b q j].
  destruct e; focus_serve; explore.
  all: try (repeat split; cbn [List.length]; lia).
  all: split; [cbn [List.length]; lia|]; split; [|exact I].
  all: try match goal with
       | |- context [Upstream.ending ?s] => destruct (Upstream.ending s); lia
       end.
  all: match goal with
       | |- context [StreamingEdge.pump ?b ?w] =>
           change (let (_, y) := StreamingEdge.pump b w in y)
             with (snd (StreamingEdge.pump b w));
           destruct (pump_prefix b (client_accepts P))
             as [_ Hc]; rewrite Hc
       end.
  all: destruct (client_accepts P); [|lia].
  all: destruct (_ <? _)%nat; lia.
Qed.

(** X4.  A POST whose body does not parse is answered 400 without any
    outbound call, with the parser's message: as [{error: 'Invalid JSON in
    request body', message}] on four endpoints, as [{error: 'Bad Request',
    message: 'Error processing request: ' + message}] on the chat proxy of
    [proxy.js]. *)
Theorem unparsable_body_is_a_client_error
  (e : Endpoint) (P : Platform) (req : Http.Request) (err : exn) :
  Http.method req = "POST" ->
  secrets_set e P ->
  inbound e P req = Throw err ->
  let r := fst (serve e P req) in
  Http.status r = 400 /\
  snd (serve e P req) = [] /\
  reply_json r =
    Some (VObj (match e with
                | EProxy =>
                    [("error", VStr "Bad Request");
                     ("message", VStr ("Error processing request: " ++ message err))]
                | _ =>
                    [("error", VStr "Invalid JSON in request body");
                     ("message", VStr (message err))]
                end)).
Proof.
  intros Hm Hs Hrb r. subst r. destruct req as [m b q j]. simpl in Hm. subst m.
  destruct e; inbound_body Hrb.
  all: focus_serve; run; use_secrets Hs; rewrite ?Hrb; explore; repeat split.
Qed.

Lemma unparsable_body_is_a_client_error_witness :
  let P := example_platform full_env 10 (Normal answer_ok) in
  Http.method (post_text "{oops") = "POST" /\
  secrets_set EFireworksProxy P /\
  inbound EFireworksProxy P (post_text "{oops") =
    Throw (Error "SyntaxError" "Unexpected token") /\
  Http.status (fst (serve EFireworksProxy P (post_text "{oops"))) = 400.
Proof.
  intros P.
  assert (Hs : secrets_set EFireworksProxy P) by (intros k _; reflexivity).
  split; [reflexivity|]. split; [exact Hs|]. split; [reflexivity|].
  apply (unparsable_body_is_a_client_error EFireworksProxy P (post_text "{oops")
           (Error "SyntaxError" "Unexpected token") eq_refl Hs eq_refl).
Defined.

(** X5.  A POST whose body is absent (or null) never reaches the upstream:
    reading the first field of the body throws, and the reply is 400 [Bad
    Request] on the chat proxy of [proxy.js], whose body handling sits inside
    the parse [try], and 500 on the other four endpoints ([Internal Server
    Error] on the Node ones). *)
Theorem missing_body_is_an_error
  (e : Endpoint) (P : Platform) (req : Http.Request) (rb : Value) :
  Http.method req = "POST" ->
  secrets_set e P ->
  inbound e P req = Normal rb ->
  is_nullish rb = true ->
  let r := fst (serve e P req) in
  Http.status r = (match e with EProxy => 400 | _ => 500 end) /\
  match e with
  | EStreamingEdge => True
  | EProxy => reply_field r "error" = Some (VStr "Bad Request")
  | _ => reply_field r "error" = Some (VStr "Internal Server Error")
  end /\
  snd (serve e P req) = [].
Proof.
  intros Hm Hs Hrb Hn r. subst r. destruct req as [m b q j]. simpl in Hm. subst m.
  destruct rb; try discriminate Hn.
  all: destruct e; inbound_body Hrb.
  all: focus_serve; run; use_secrets Hs; rewrite ?Hrb; explore.
  all: try match goal with
       | H : get _ _ = Normal _ |- _ => discriminate H
       end.
  all: repeat split.
Qed.

Lemma missing_body_is_an_error_witness :
  let P := example_platform full_env 10 (Normal answer_ok) in
  Http.method (post VUndefined) = "POST" /\
  secrets_set EWebSearchAgent P /\
  inbound EWebSearchAgent P (post VUndefined) = Normal VUndefined /\
  is_nullish VUndefined = true /\
  Http.status (fst (serve EWebSearchAgent P (post VUndefined))) = 500.
Proof.
  intros P.
  assert (Hs : secrets_set EWebSearchAgent P) by (intros k _; reflexivity).
  split; [reflexivity|]. split; [exact Hs|]. split; [reflexivity|].
  split; [reflexivity|].
  apply (missing_body_is_an_error EWebSearchAgent P (post VUndefined) VUndefined
           eq_refl Hs eq_refl eq_refl).
Defined.

(** X6.  On the two agent endpoints a POST whose [query] is absent or falsy
    (empty string, 0, null, false) is answered 400 with
    [{error: 'Missing required parameter: query'}], without any outbound
    call. *)
Theorem missing_query_is_a_client_error
  (e : Endpoint) (P : Platform) (req : Http.Request) (rb q : Value) :
  chat e = false ->
  Http.method req = "POST" ->
  secrets_set e P ->
  inbound e P req = Normal rb ->
  get rb "query" = Normal q ->
  truthy q = false ->
  let r := fst (serve e P req) in
  Http.status r = 400 /\
  reply_json r = Some (VObj [("error", VStr "Missing required parameter: query")]) /\
  snd (serve e P req) = [].
Proof.
  intros Hc Hm Hs Hrb Hq Hf r. subst r. destruct req as [m b q0 j]. simpl in Hm. subst m.
  destruct e; try discriminate Hc; inbound_body Hrb.
  all: focus_serve; run; use_secrets Hs; rewrite ?Hrb, ?Hq, ?Hf; explore; repeat split.
Qed.

Lemma missing_query_is_a_client_error_witness :
  let P := example_platform full_env 10 (Normal answer_ok) in
  let req := post (VObj [("query", VStr "")]) in
  chat EResearchAgent = false /\
  Http.method req = "POST" /\
  secrets_set EResearchAgent P /\
  inbound EResearchAgent P req = Normal (VObj [("query", VStr "")]) /\
  get (VObj [("query", VStr "")]) "query" = Normal (VStr "") /\
  truthy (VStr "") = false /\
  Http.status (fst (serve EResearchAgent P req)) = 400.
Proof.
  intros P req.
  assert (Hs : secrets_set EResearchAgent P) by (intros k _; reflexivity).
  split; [reflexivity|]. split; [reflexivity|]. split; [exact Hs|].
  split; [reflexivity|]. split; [reflexivity|]. split; [reflexivity|].
  apply (missing_query_is_a_client_error EResearchAgent P req
           (VObj [("query", VStr "")]) (VStr "")
           eq_refl eq_refl Hs eq_refl eq_refl eq_refl).
Defined.

(** X7.  On the two agent endpoints a POST whose [query] is truthy but not
    a string (a number, true, an array, an object) passes the presence check
    and then fails at [query.substring]: the reply is 500 [Internal Server
    Error], and no outbound call is made. *)
Theorem query_that_is_no_string_is_a_server_error
  (e : Endpoint) (P : Platform) (req : Http.Request) (rb q : Value) :
  chat e = false ->
  Http.method req = "POST" ->
  secrets_set e P ->
  inbound e P req = Normal rb ->
  get rb "query" = Normal q ->
  truthy q = true ->
  is_string q = false ->
  let r := fst (serve e P req) in
  Http.status r = 500 /\
  reply_json r = Some (VObj [("error", VStr "Internal Server Error");
                             ("message", VStr "query.substring is not a function")]) /\
  snd (serve e P req) = [].
Proof.
  intros Hc Hm Hs Hrb Hq Ht Hstr r. subst r. destruct req as [m b q0 j]. simpl in Hm. subst m.
  destruct e; try discriminate Hc; inbound_body Hrb.
  all: destruct q; try discriminate Hstr.
  all: focus_serve; run; use_secrets Hs; rewrite ?Hrb, ?Hq, ?Ht; explore.
  all: try match goal with
       | H : get ?rb _ = Throw _, H' : get ?rb _ = Normal _ |- _ =>
           destruct rb; discriminate
       end.
  all: match goal with
       | H : substring_100 _ = _ |- _ =>
           cbn [substring_100] in H;
           first [discriminate H | injection H as <-]
       end.
  all: repeat split.
Qed.

Lemma query_that_is_no_string_is_a_server_error_witness :
  let P := example_platform full_env 10 (Normal answer_ok) in
  let req := post (VObj [("query", num 5)]) in
  chat EWebSearchAgent = false /\
  Http.method req = "POST" /\
  secrets_set EWebSearchAgent P /\
  inbound EWebSearchAgent P req = Normal (VObj [("query", num 5)]) /\
  get (VObj [("query", num 5)]) "query" = Normal (num 5) /\
  truthy (num 5) = true /\
  is_string (num 5) = false /\
  Http.status (fst (serve EWebSearchAgent P req)) = 500.
Proof.
  intros P req.
  assert (Hs : secrets_set EWebSearchAgent P) by (intros k _; reflexivity).
  split; [reflexivity|]. split; [reflexivity|]. split; [exact Hs|].
  split; [reflexivity|]. split; [reflexivity|]. split; [reflexivity|].
  split; [reflexivity|].
  apply (query_that_is_no_string_is_a_server_error EWebSearchAgent P req
           (VObj [("query", num 5)]) (num 5)
           eq_refl eq_refl Hs eq_refl eq_refl eq_refl eq_refl).
Defined.

(** X8.  When the upstream call is not aborted and [fetch] rejects with an
    error that is not an [AbortError] (a transport failure), the reply is 500
    and closed once: [{error: 'Request Failed', message}] with the failure's
    message on the four Node endpoints; on the edge function the failure's
    message as [error] ([Unknown error] when empty) and its name and message
    under [details]. *)
Theorem transport_failure_is_a_server_error
  (e : Endpoint) (P : Platform) (req : Http.Request) (c : Fetch.Request)
  (err : exn) :
  In c (snd (serve e P req)) ->
  ~ aborted P c ->
  fetch_settles P c = Throw err ->
  name err <> "AbortError" ->
  let r := fst (serve e P req) in
  Http.status r = 500 /\
  Http.closed r = 1%nat /\
  match e with
  | EStreamingEdge =>
      reply_field r "error" =
        Some (VStr (if (message err =? "")%string then "Unknown error"
                    else message err)) /\
      reply_field r "details" =
        Some (VObj [("name", VStr (name err)); ("message", VStr (message err))])
  | _ =>
      reply_json r = Some (VObj [("error", VStr "Request Failed");
                                 ("message", VStr (message err))])
  end.
Proof.
  intros Hin Hna Hsettle Hname r. subst r.
  apply String.eqb_neq in Hname.
  destruct req as [m b q j].
  destruct e.
  all: revert Hin; focus_serve; explore; the_call.
  all: try (exfalso; apply Hna; eexists; split;
            [reflexivity | apply Z.ltb_lt; assumption]).
  all: reconcile.
  all: try congruence.
  all: repeat split.
Qed.

Lemma transport_failure_is_a_server_error_witness :
  let P := example_platform full_env 10 (Throw network_down) in
  let req := post query_body in
  let c := the_call_of (snd (serve EWebSearchAgent P req)) in
  In c (snd (serve EWebSearchAgent P req)) /\
  ~ aborted P c /\
  fetch_settles P c = Throw network_down /\
  name network_down <> "AbortError" /\
  Http.status (fst (serve EWebSearchAgent P req)) = 500.
Proof.
  intros P req c.
  assert (Hin : In c (snd (serve EWebSearchAgent P req))) by (left; reflexivity).
  assert (Hna : ~ aborted P c).
  { intros (T & Hs & Hlt). vm_compute in Hs. injection Hs as <-.
    vm_compute in Hlt. discriminate Hlt. }
  assert (Hname : name network_down <> "AbortError") by discriminate.
  split; [exact Hin|]. split; [exact Hna|]. split; [reflexivity|].
  split; [exact Hname|].
  apply (transport_failure_is_a_server_error EWebSearchAgent P req c network_down
           Hin Hna eq_refl Hname).
Defined.

(** X9.  On the two agent endpoints, when the upstream call is not aborted
    and answers with a success status and a JSON object, the reply is 200,
    not cacheable, and consists of exactly two fields: [success: true] and
    the result picked from the answer ([research_papers], respectively
    [output.search_output]), replaced by a fixed "nothing found" text when it
    is absent or falsy.  No other field of the upstream answer is passed
    on. *)
Theorem agent_success
  (e : Endpoint) (P : Platform) (req : Http.Request) (c : Fetch.Request)
  (up : Upstream.Response) (fields : list (string * Value)) :
  chat e = false ->
  In c (snd (serve e P req)) ->
  ~ aborted P c ->
  fetch_settles P c = Normal up ->
  Upstream.ok up = true ->
  Upstream.json up = Normal (VObj fields) ->
  let r := fst (serve e P req) in
  Http.status r = 200 /\
  header "Cache-Control" (Http.headers r) = Some "no-cache, no-store, must-revalidate" /\
  match e with
  | EResearchAgent =>
      reply_json r =
        Some (VObj [("research_papers",
                     or_else (lookup "research_papers" fields)
                             (VStr "No research papers found."));
                    ("success", VBool true)])
  | _ =>
      reply_json r =
        Some (VObj [("search_results",
                     or_else (match lookup "output" fields with
                              | VObj output => lookup "search_output" output
                              | _ => VUndefined
                              end)
                             (VStr "No search results found."));
                    ("success", VBool true)])
  end.
Proof.
  intros Hc Hin Hna Hsettle Hok Hjson r. subst r.
  destruct req as [m b q j].
  destruct e; try discriminate Hc.
  all: revert Hin; focus_serve; explore; the_call.
  all: try (exfalso; apply Hna; eexists; split;
            [reflexivity | apply Z.ltb_lt; assumption]).
  all: reconcile.
  all: try congruence.
  all: repeat match goal with
       | H : get (VObj _) _ = _ |- _ => cbn [get] in H
       end; reconcile.
  all: try discriminate.
  all: repeat split.
  all: destruct (lookup "output" fields);
    cbn [is_nullish get] in *; try discriminate; reconcile; reflexivity.
Qed.

Lemma agent_success_witness :
  let P := example_platform full_env 10 (Normal answer_papers) in
  let req := post query_body in
  let c := the_call_of (snd (serve EResearchAgent P req)) in
  chat EResearchAgent = false /\
  In c (snd (serve EResearchAgent P req)) /\
  ~ aborted P c /\
  fetch_settles P c = Normal answer_papers /\
  Upstream.ok answer_papers = true /\
  Http.status (fst (serve EResearchAgent P req)) = 200.
Proof.
  intros P req c.
  assert (Hin : In c (snd (serve EResearchAgent P req))) by (left; reflexivity).
  assert (Hna : ~ aborted P c).
  { intros (T & Hs & Hlt). vm_compute in Hs. injection Hs as <-.
    vm_compute in Hlt. discriminate Hlt. }
  split; [reflexivity|]. split; [exact Hin|]. split; [exact Hna|].
  split; [reflexivity|]. split; [reflexivity|].
  apply (agent_success EResearchAgent P req c answer_papers
           [("research_papers", VStr "three papers")]
           eq_refl Hin Hna eq_refl eq_refl eq_refl).
Defined.






(** X11.  The chat proxy of [proxy.js] sends as [user] the inbound
    [threadId] when that is truthy, else the inbound [user] when that is
    truthy, else [thread-] followed by the clock reading taken at that
    moment (the first of the invocation). *)
Theorem thread_id_is_forwarded
  (P : Platform) (req : Http.Request) (c : Fetch.Request)
  (rb threadId user : Value) :
  In c (snd (serve EProxy P req)) ->
  inbound EProxy P req = Normal rb ->
  get rb "threadId" = Normal threadId ->
  get rb "user" = Normal user ->
  outbound_field c "user" =
    Some (if truthy threadId then threadId
          else if truthy user then user
          else VStr ("thread-" ++ string_of_Z (Date_now P 0))).
Proof.
  intros Hin Hrb Ht Hu. destruct req as [m b q j]. inbound_body Hrb.
  revert Hin; focus_serve; run; rewrite ?Hrb; explore; the_call.
  all: match goal with
       | H : get_either _ _ _ = _ |- _ =>
           unfold get_either in H; rewrite Ht in H; cbn [and_then] in H;
           destruct (truthy threadId) eqn:Htt;
           [|rewrite Hu in H]; injection H as <-
       end.
  all: outbound.
  all: try reflexivity.
  all: try congruence.
  all: match goal with
       | H : truthy ?x = _ |- context [truthy ?x] => rewrite H
       end; try reflexivity.
Qed.

Lemma thread_id_is_forwarded_witness :
  let P := example_platform full_env 10 (Normal answer_ok) in
  let rb := VObj [("model", VStr "x"); ("user", VStr "u-7")] in
  let c := the_call_of (snd (serve EProxy P (post rb))) in
  In c (snd (serve EProxy P (post rb))) /\
  inbound EProxy P (post rb) = Normal rb /\
  get rb "threadId" = Normal VUndefined /\
  get rb "user" = Normal (VStr "u-7") /\
  outbound_field c "user" = Some (VStr "u-7").
Proof.
  intros P rb c.
  assert (Hin : In c (snd (serve EProxy P (post rb)))) by (left; reflexivity).
  split; [exact Hin|]. split; [reflexivity|]. split; [reflexivity|].
  split; [reflexivity|].
  exact (thread_id_is_forwarded P (post rb) c rb VUndefined (VStr "u-7")
           Hin eq_refl eq_refl eq_refl).
Defined.

(** X12.  Every outbound call is a POST of [application/json] to the fixed
    address of the endpoint's upstream, with the endpoint's abort timer (none
    on the edge function), and is made only for a POST request: neither the
    target nor the method depends on the inbound request. *)
Theorem outbound_call_target
  (e : Endpoint) (P : Platform) (req : Http.Request) (c : Fetch.Request) :
  In c (snd (serve e P req)) ->
  Fetch.url c = upstream_url e /\
  Fetch.method c = "POST" /\
  header "Content-Type" (Fetch.headers c) = Some "application/json" /\
  Fetch.signal c = timeout e /\
  Http.method req = "POST".
Proof.
  intros Hin. destruct req as [m b q j].
  destruct e.
  all: revert Hin; focus_serve; explore; the_call.
  all: repeat split.
  all: cbn [Http.method]; now apply String.eqb_eq.
Qed.

Lemma outbound_call_target_witness :
  let P := example_platform full_env 10 (Normal answer_ok) in
  let c := the_call_of (snd (serve EResearchAgent P (post query_body))) in
  In c (snd (serve EResearchAgent P (post query_body))) /\
  Fetch.url c = "https://api.abacus.ai/api/agents/execute".
Proof.
  intros P c.
  assert (Hin : In c (snd (serve EResearchAgent P (post query_body))))
    by (left; reflexivity).
  split; [exact Hin|].
  apply (outbound_call_target EResearchAgent P (post query_body) c Hin).
Defined.

Lemma validated_in_range P original n :
  validatedMaxTokens P original = Normal n -> in_range n.
Proof.
  unfold validatedMaxTokens.
  destruct (ToNumber P original) as [x|]; [|discriminate].
  intros H. injection H as <-.
  destruct x as [| | |q]; cbn [Math_max Math_min].
  - now left.
  - right. exists 1%Q. repeat split; simpl; try discriminate.
  - right. exists 8192%Q. repeat split; simpl; discriminate.
  - right. destruct (Qle_bool 1 q) eqn:E1; cbn [Math_min].
    + destruct (Qle_bool q 8192) eqn:E2.
      * exists q. apply Qle_bool_iff in E1, E2. now repeat split.
      * exists 8192%Q. repeat split; discriminate.
    + exists 1%Q. repeat split; simpl; discriminate.
Qed.

(** X13.  Whatever the inbound [max_tokens] is (a number, a string, anything
    a JSON body can hold), every outbound payload of a chat endpoint carries a
    numeric [max_tokens] that is either in the closed range [1, 8192] or NaN
    (the result of a value that converts to no number): a number outside the
    range is never sent. *)
Theorem outbound_max_tokens_in_range
  (e : Endpoint) (P : Platform) (req : Http.Request) (c : Fetch.Request) :
  chat e = true ->
  In c (snd (serve e P req)) ->
  exists n, outbound_field c "max_tokens" = Some (VNum n) /\ in_range n.
Proof.
  intros Hchat Hin. destruct req as [m b q j].
  destruct e; try discriminate Hchat; clear Hchat.
  all: revert Hin; focus_serve; explore; the_call.
  all: match goal with
       | H : validatedMaxTokens _ _ = Normal ?n |- _ =>
           exists n; split; [|exact (validated_in_range _ _ _ H)]
       end.
  all: outbound; try reflexivity.
  all: f_equal; apply cleanedParams_lookup.
Qed.

Lemma outbound_max_tokens_in_range_witness :
  let P := example_platform full_env 10 (Normal answer_ok) in
  let req := post (chat_body (VStr "many")) in
  let c := the_call_of (snd (serve EStreamingEdge P req)) in
  chat EStreamingEdge = true /\
  In c (snd (serve EStreamingEdge P req)) /\
  exists n, outbound_field c "max_tokens" = Some (VNum n) /\ in_range n.
Proof.
  intros P req c.
  assert (Hin : In c (snd (serve EStreamingEdge P req))) by (left; reflexivity).
  split; [reflexivity|]. split; [exact Hin|].
  exact (outbound_max_tokens_in_range EStreamingEdge P req c eq_refl Hin).
Defined.

(** X14.  An agent endpoint that calls its upstream has a [query] that is a
    non-empty string, and sends it unchanged: the web search agent as
    [{deploymentId, input: {query}}], the research agent as
    [{deployment_token, deployment_id, keyword_arguments: {subject: query}}],
    where [keyword_arguments] also holds [email] exactly when the inbound
    [email] is truthy. *)
Theorem agent_payload
  (e : Endpoint) (P : Platform) (req : Http.Request) (c : Fetch.Request)
  (rb query email : Value) :
  chat e = false ->
  In c (snd (serve e P req)) ->
  inbound e P req = Normal rb ->
  get rb "query" = Normal query ->
  get rb "email" = Normal email ->
  is_string query = true /\
  truthy query = true /\
  outbound_fields c =
    match e with
    | EResearchAgent =>
        [("deployment_token", env_value (process_env P "ABACUS_DEPLOYMENT_TOKEN"));
         ("deployment_id", env_value (process_env P "ABACUS_DEPLOYMENT_ID"));
         ("keyword_arguments",
          VObj (("subject", query) ::
                if truthy email then [("email", email)] else []))]
    | _ =>
        [("deploymentId", env_value (process_env P "ABACUS_WEBSEARCH_ID"));
         ("input", VObj [("query", query)])]
    end.
Proof.
  intros Hc Hin Hrb Hq Hem. destruct req as [m b q j].
  destruct e; try discriminate Hc; inbound_body Hrb.
  all: revert Hin; focus_serve; run; rewrite ?Hrb; explore; the_call.
  all: reconcile.
  all: match goal with
       | H : substring_100 ?x = Normal _ |- _ =>
           destruct x; try discriminate H
       end.
  all: split; [reflexivity|]; split; [assumption|].
  all: cbv [outbound_fields Fetch.body or_else] in *.
  all: destruct (truthy email) eqn:Hemail; cbn beta iota in *; cbn [truthy] in *;
    rewrite ?Hemail; first [reflexivity | discriminate | congruence].
Qed.

Lemma agent_payload_witness :
  let P := example_platform full_env 10 (Normal answer_ok) in
  let req := post query_body in
  let c := the_call_of (snd (serve EWebSearchAgent P req)) in
  chat EWebSearchAgent = false /\
  In c (snd (serve EWebSearchAgent P req)) /\
  inbound EWebSearchAgent P req = Normal query_body /\
  get query_body "query" = Normal (VStr "cats") /\
  get query_body "email" = Normal VUndefined /\
  outbound_field c "input" = Some (VObj [("query", VStr "cats")]).
Proof.
  intros P req c.
  assert (Hin : In c (snd (serve EWebSearchAgent P req))) by (left; reflexivity).
  split; [reflexivity|]. split; [exact Hin|]. split; [reflexivity|].
  split; [reflexivity|]. split; [reflexivity|].
  destruct (agent_payload EWebSearchAgent P req c query_body (VStr "cats") VUndefined
              eq_refl Hin eq_refl eq_refl eq_refl) as (_ & _ & Hf).
  unfold outbound_field. unfold outbound_fields in Hf.
  destruct (Fetch.body c) as [|[| | | | | |fields]|]; try discriminate Hf.
  rewrite Hf. reflexivity.
Defined.
